(** * Mobile PDF guides: a model of the two conversion scripts

    [create_mobile_pdfs.py] and [create_mobile_optimized_pdfs.py] turn a
    folder of images into an A5 document, one image per page, with an optional
    title page in front.  Both scripts are embedded below, line by line:

    - a Python [float] is an IEEE 754 binary64 number, Rocq's primitive
      [float]: its operations round as Python's do;
    - Python [int] is [Z] (pixel sizes) or [nat] (loop indices, [len]);
    - [print], the reportlab canvas and the files written by [save] live in an
      explicit state; a Python exception is the [raised] outcome of a
      computation, and it leaves the state as it was when it was raised;
    - the file system is read through a [FileSystem] record. *)

From Stdlib Require Import List String Ascii ZArith Bool Arith Lia.
From Stdlib Require Import RelationClasses Morphisms Setoid.
From Stdlib Require Import PrimFloat.
From Stdlib Require Import Permutation Sorted DecimalString.
Import ListNotations.

#[local] Set Warnings "-inexact-float".

Local Open Scope string_scope.
Local Open Scope list_scope.

(** ** Python values *)

(** [str(n)] for a non-negative integer. *)
Definition str_nat (n : nat) : string := NilEmpty.string_of_uint (Nat.to_uint n).

(** The truth value of an optional string: [None] and [''] are false. *)
Definition truthy (title : option string) : bool :=
  match title with
  | Some (String _ _) => true
  | _ => false
  end.

Definition newline : ascii := "010"%char.

(** [float(n)] for an [int], as Python converts it before an operation with a
    float: exact below 2^53, which covers the pixel sizes that PIL reports
    (below 2^31) and the indices and constants of this program. *)
Fixpoint float_of_positive (p : positive) : float :=
  match p with
  | xH => 1%float
  | xO q => (2 * float_of_positive q)%float
  | xI q => (2 * float_of_positive q + 1)%float
  end.

Definition float_of_int (n : Z) : float :=
  match n with
  | Z0 => 0%float
  | Zpos p => float_of_positive p
  | Zneg p => (- float_of_positive p)%float
  end.

(** [min(a, b)] on two floats: the first argument unless the second is
    smaller. *)
Definition float_min (a b : float) : float :=
  if (b <? a)%float then b else a.

(** [s.split(sep)] for a one-character separator. *)
Fixpoint split (sep : ascii) (s : string) : list string :=
  match s with
  | EmptyString => [EmptyString]
  | String ch rest =>
      if Ascii.eqb ch sep then EmptyString :: split sep rest
      else match split sep rest with
           | first :: others => String ch first :: others
           | [] => [String ch EmptyString]
           end
  end.

Fixpoint reverse (s : string) : string :=
  match s with
  | EmptyString => EmptyString
  | String ch rest => reverse rest ++ String ch EmptyString
  end.

(** [s.startswith(start)] *)
Fixpoint startswith (s start : string) : bool :=
  match start with
  | EmptyString => true
  | String a start' =>
      match s with
      | EmptyString => false
      | String b s' => Ascii.eqb a b && startswith s' start'
      end
  end.

(** [name.endswith(suffix)] *)
Definition endswith (name suffix : string) : bool :=
  startswith (reverse name) (reverse suffix).

(** An exception object: its class and its message ([str(e)]). *)
Record exn := Exception { exn_class : string; exn_message : string }.

(** ** The file system *)

(** What a file is to PIL and reportlab: [Image.open] either raises or gives
    the pixel size; [drawImage] on an opened image may still raise (truncated
    data), in which case [draw_error] holds the message. *)
Inductive file :=
| image (size : Z * Z) (draw_error : option string)
| not_image (open_error : string).

(** A path returned by [Path.glob]: its file name, and what is on disk. *)
Record Path := { name : string; on_disk : file }.

(** [os.path.join(folder, file_name)] and [str(Path(folder) / file_name)], for
    a folder spelled as [pathlib] prints it (no trailing or doubled slash, no
    [.] component), which is how [main] passes it. *)
Definition joinpath (folder file_name : string) : string :=
  folder ++ "/" ++ file_name.

(** The environment of a run. *)
Record FileSystem := {
  (** the entries of a directory in the order the OS lists them,
      [None] when the path is not a directory *)
  scandir : string -> option (list Path);
  (** whether [c.save()] succeeds in writing a document at this path *)
  writable : string -> bool;
  (** [datetime.now().strftime("%B %d, %Y")] *)
  today : string;
  (** whether [os.makedirs(path, exist_ok=True)] succeeds: the path is a
      directory already or can be made one *)
  creatable : string -> bool;
  (** the exception raised for a path when writing there or creating it
      fails *)
  os_error : string -> exn;
  (** whether a [save] that fails at this path fails after it has opened the
      file, which is then left empty or truncated *)
  leaves_file : string -> bool;
  (** a file can only be written inside a directory *)
  writable_inside : forall folder file_name,
    writable (joinpath folder file_name) = true -> creatable folder = true
}.

Definition isdir (fs : FileSystem) (folder : string) : bool :=
  match scandir fs folder with Some _ => true | None => false end.

(** [Path(folder).glob('*' + ext)]: the entries whose name ends in [ext], in
    directory order; nothing for a folder that does not exist. *)
Definition glob (fs : FileSystem) (folder ext : string) : list Path :=
  match scandir fs folder with
  | Some entries => filter (fun p => endswith (name p) ext) entries
  | None => []
  end.

(** [list.sort(key=lambda x: x.name)]: a stable sort on the file name,
    compared as Python compares [str]. *)
Fixpoint insert_by_name (p : Path) (l : list Path) : list Path :=
  match l with
  | [] => [p]
  | q :: l' => if (name p <=? name q)%string then p :: q :: l'
               else q :: insert_by_name p l'
  end.

Definition sort_by_name (l : list Path) : list Path :=
  fold_right insert_by_name [] l.

(** ** The reportlab canvas *)

Inductive op :=
| SetFont (font : string) (size : Z)
| SetFillColorRGB (r g b : float)
| Rect (x y width height : float) (fill : bool)
| DrawCentredString (x y : float) (text : string)
| DrawImage (path : string) (x y width height : float).

Definition page := list op.

Record Canvas := {
  filename : string;
  pagesize : float * float;
  info : list (string * string);
  (** the marking operators of the page being drawn *)
  code : list op;
  (** the pages closed by [showPage], first page first *)
  pages : list page
}.

(** reportlab.lib.units and reportlab.lib.pagesizes *)
Definition inch : float := 72.
Definition cm : float := inch / 2.54.
Definition mm : float := cm * 0.1.
Definition A5 : float * float := (148 * mm, 210 * mm)%float.

(** [portrait(pagesize)]: [a, b = pagesize], then [(b, a)] if [a >= b] and
    [(a, b)] otherwise. *)
Definition portrait (size : float * float) : float * float :=
  let '(a, b) := size in
  if (b <=? a)%float then (b, a) else (a, b).

(** ** The state of a run and its monad *)

Record State := {
  stdout : list string;
  c : Canvas;
  (** the documents that [save] wrote, by path *)
  disk : list (string * list page);
  made_dirs : list string;
  (** the paths at which a failed [save] left an empty or truncated file *)
  unfinished : list string
}.

Inductive outcome (A : Type) :=
| returned (a : A)
| raised (e : exn).
Arguments returned {A} a.
Arguments raised {A} e.

Definition M (A : Type) : Type := State -> outcome A * State.

Definition ret {A} (a : A) : M A := fun st => (returned a, st).

Definition bind {A B} (m : M A) (k : A -> M B) : M B :=
  fun st => match m st with
            | (returned a, st') => k a st'
            | (raised e, st') => (raised e, st')
            end.

Definition raise {A} (e : exn) : M A := fun st => (raised e, st).

(** [try: body  except Exception as e: handler(e)] *)
Definition try_except {A} (body : M A) (handler : exn -> M A) : M A :=
  fun st => match body st with
            | (returned a, st') => (returned a, st')
            | (raised e, st') => handler e st'
            end.

Declare Scope py_scope.
Delimit Scope py_scope with py.
Notation "x <- m ;; k" := (bind m (fun x => k))
  (at level 61, m at next level, right associativity) : py_scope.
Notation "m ;; k" := (bind m (fun _ => k))
  (at level 61, right associativity) : py_scope.
Notation "' pat <- m ;; k" := (bind m (fun x => match x with pat => k end))
  (at level 61, pat pattern, m at next level, right associativity) : py_scope.
Local Open Scope py_scope.

Definition print (line : string) : M unit :=
  fun st => (returned tt,
             {| stdout := stdout st ++ [line]; c := c st;
                disk := disk st; made_dirs := made_dirs st;
     unfinished := unfinished st |}).

Definition with_canvas (f : Canvas -> Canvas) : M unit :=
  fun st => (returned tt,
             {| stdout := stdout st; c := f (c st);
                disk := disk st; made_dirs := made_dirs st;
     unfinished := unfinished st |}).

(** [for i, x in enumerate(l): body], counting from [i]. *)
Fixpoint for_enumerate {A} (body : nat -> A -> M unit) (i : nat) (l : list A)
  : M unit :=
  match l with
  | [] => ret tt
  | x :: l' => body i x ;; for_enumerate body (S i) l'
  end.

(** *** Canvas methods *)

(** [c = canvas.Canvas(output_pdf, pagesize=size)] *)
Definition new_Canvas (output_pdf : string) (size : float * float) : M unit :=
  with_canvas (fun _ => {| filename := output_pdf; pagesize := size;
                           info := []; code := []; pages := [] |}).

Definition emit (o : op) : M unit :=
  with_canvas (fun cv => {| filename := filename cv; pagesize := pagesize cv;
                            info := info cv; code := code cv ++ [o];
                            pages := pages cv |}).

Definition setInfo (key value : string) : M unit :=
  with_canvas (fun cv => {| filename := filename cv; pagesize := pagesize cv;
                            info := info cv ++ [(key, value)]; code := code cv;
                            pages := pages cv |}).

Definition setTitle := setInfo "Title".
Definition setAuthor := setInfo "Author".
Definition setSubject := setInfo "Subject".
Definition setFont (font : string) (size : Z) := emit (SetFont font size).
Definition setFillColorRGB (r g b : float) := emit (SetFillColorRGB r g b).
Definition rect (x y w h : float) (fill : bool) := emit (Rect x y w h fill).
Definition drawCentredString (x y : float) (text : string) :=
  emit (DrawCentredString x y text).

Definition close_page (cv : Canvas) : Canvas :=
  {| filename := filename cv; pagesize := pagesize cv; info := info cv;
     code := []; pages := pages cv ++ [code cv] |}.

Definition showPage : M unit := with_canvas close_page.

(** [c.drawImage(path, x, y, width=, height=)]: reads the file again, and
    raises before anything is drawn when the data cannot be rendered. *)
Definition drawImage (p : Path) (path : string) (x y width height : float) : M unit :=
  match on_disk p with
  | image _ None => emit (DrawImage path x y width height)
  | image _ (Some msg) => raise (Exception "OSError" msg)
  | not_image msg => raise (Exception "OSError" msg)
  end.

(** [c.save()]: closes a page that still has content, then opens the file,
    builds the document and writes it.  When this raises, no document is
    written, and the file is left empty or truncated if it had been opened. *)
Definition save (fs : FileSystem) : M unit :=
  fun st =>
    let cv := match code (c st) with [] => c st | _ => close_page (c st) end in
    if writable fs (filename cv)
    then (returned tt,
          {| stdout := stdout st; c := cv;
             disk := disk st ++ [(filename cv, pages cv)];
             made_dirs := made_dirs st;
             unfinished := unfinished st |})
    else (raised (os_error fs (filename cv)),
          {| stdout := stdout st; c := cv;
             disk := disk st; made_dirs := made_dirs st;
             unfinished := unfinished st
                           ++ (if leaves_file fs (filename cv)
                               then [filename cv] else []) |}).

(** *** PIL and arithmetic *)

(** [img = Image.open(img_path); img.size] *)
Definition Image_open_size (p : Path) : M (Z * Z) :=
  match on_disk p with
  | image size _ => ret size
  | not_image msg => raise (Exception "UnidentifiedImageError" msg)
  end.

(** [a / n] for a float [a] and an int [n] *)
Definition truediv (a : float) (n : Z) : M float :=
  if (n =? 0)%Z then raise (Exception "ZeroDivisionError" "float division by zero")
  else ret (a / float_of_int n)%float.

(** [os.makedirs(path, exist_ok=True)] *)
Definition makedirs (fs : FileSystem) (path : string) : M unit :=
  fun st =>
    if creatable fs path
    then (returned tt,
          {| stdout := stdout st; c := c st; disk := disk st;
             made_dirs := made_dirs st ++ [path];
             unfinished := unfinished st |})
    else (raised (os_error fs path), st).

Definition image_extensions : list string := [".png"; ".jpg"; ".jpeg"; ".gif"].

(** ** create_mobile_pdfs.py *)

Module CreateMobilePdfs.

(** The body of the [for] loop of [create_pdf_from_images]. *)
Definition add_image (page_width page_height : float) (image_folder : string)
    (total : nat) (i : nat) (img_path : Path) : M unit :=
  print ("Adding image " ++ str_nat (i + 1) ++ "/" ++ str_nat total ++ ": "
         ++ name img_path) ;;
  try_except
    ('(img_width, img_height) <- Image_open_size img_path ;;
     let margin : Z := 20%Z in
     let max_width := (page_width - float_of_int (2 * margin))%float in
     let max_height := (page_height - float_of_int (2 * margin))%float in
     width_ratio <- truediv max_width img_width ;;
     height_ratio <- truediv max_height img_height ;;
     let scale_factor := float_min width_ratio height_ratio in
     let new_width := (float_of_int img_width * scale_factor)%float in
     let new_height := (float_of_int img_height * scale_factor)%float in
     let x_pos := ((page_width - new_width) / 2)%float in
     let y_pos := ((page_height - new_height) / 2)%float in
     drawImage img_path (joinpath image_folder (name img_path))
               x_pos y_pos new_width new_height ;;
     setFont "Helvetica" 8 ;;
     drawCentredString (page_width / 2) 20 ("Page " ++ str_nat (i + 1)) ;;
     showPage)
    (fun e => print ("Error processing " ++ joinpath image_folder (name img_path)
                     ++ ": " ++ exn_message e)).

Definition create_pdf_from_images (fs : FileSystem)
    (image_folder output_pdf : string) (title : option string) : M bool :=
  let image_files :=
    sort_by_name (flat_map (glob fs image_folder) image_extensions) in
  match image_files with
  | [] => print ("No images found in " ++ image_folder) ;; ret false
  | _ :: _ =>
    let '(page_width, page_height) := A5 in
    new_Canvas output_pdf A5 ;;
    match title with
    | Some (String ch rest) =>
        let title := String ch rest in
        setFont "Helvetica-Bold" 24 ;;
        drawCentredString (page_width / 2) (page_height * 0.6) title ;;
        setFont "Helvetica" 14 ;;
        drawCentredString (page_width / 2) (page_height * 0.5) "June 15, 2025" ;;
        setFont "Helvetica" 12 ;;
        drawCentredString (page_width / 2) (page_height * 0.45)
                          "By: Daniel Rosehill" ;;
        showPage
    | _ => ret tt
    end ;;
    for_enumerate
      (add_image page_width page_height image_folder (List.length image_files))
      0 image_files ;;
    try_except
      (save fs ;;
       print ("PDF created successfully: " ++ output_pdf) ;;
       ret true)
      (fun e => print ("Error saving PDF: " ++ exn_message e) ;; ret false)
  end.

Inductive Source := original | watermarked | watermarked_legible.

Definition source_name (s : Source) : string :=
  match s with
  | original => "original"
  | watermarked => "watermarked"
  | watermarked_legible => "watermarked_legible"
  end.

Definition wireless_title : string :=
  "Emergency Wireless Notifications" ++ String newline "Configuration Guide".
Definition hfc_title : string :=
  "Home Front Command App" ++ String newline "Configuration Guide".

(** [main], for the script in [base_dir] run with [--source source]. *)
Definition main (fs : FileSystem) (base_dir : string) (source : Source) : M unit :=
  let wireless_folder :=
    match source with
    | original => joinpath base_dir "emergency-wireless-notifiers"
    | _ => joinpath (joinpath base_dir (source_name source))
                    "emergency-wireless-notifiers"
    end in
  let hfc_folder :=
    match source with
    | original => joinpath base_dir "hfc-guide"
    | _ => joinpath (joinpath base_dir (source_name source)) "hfc-guide"
    end in
  let pdf_dir := joinpath base_dir "pdf_guides" in
  makedirs fs pdf_dir ;;
  let wireless_pdf :=
    joinpath pdf_dir "emergency_wireless_notifications_guide.pdf" in
  let hfc_pdf := joinpath pdf_dir "hfc_guide.pdf" in
  (if isdir fs wireless_folder then
     print (String newline
              "Creating PDF for Emergency Wireless Notifications Guide") ;;
     _ <- create_pdf_from_images fs wireless_folder wireless_pdf
                                 (Some wireless_title) ;;
     ret tt
   else ret tt) ;;
  (if isdir fs hfc_folder then
     print (String newline "Creating PDF for Home Front Command Guide") ;;
     _ <- create_pdf_from_images fs hfc_folder hfc_pdf (Some hfc_title) ;;
     ret tt
   else ret tt) ;;
  print (String newline ("PDFs saved to: " ++ pdf_dir)).

End CreateMobilePdfs.

(** ** create_mobile_optimized_pdfs.py *)

Module CreateMobileOptimizedPdfs.

Definition instructions : list string :=
  ["For best viewing experience:";
   "• Set your PDF reader to 'Fit to Width'";
   "• Use portrait orientation";
   "• Enable 'Continuous Scrolling' if available"].

(** The body of the [for] loop of [create_mobile_optimized_pdf]. *)
Definition add_image (page_width page_height : float) (image_folder : string)
    (total : nat) (i : nat) (img_path : Path) : M unit :=
  print ("Adding image " ++ str_nat (i + 1) ++ "/" ++ str_nat total ++ ": "
         ++ name img_path) ;;
  try_except
    ('(img_width, img_height) <- Image_open_size img_path ;;
     let margin : Z := 15%Z in
     let max_width := (page_width - float_of_int (2 * margin))%float in
     let max_height :=
       (page_height - float_of_int (2 * margin) - float_of_int 25)%float in
     width_ratio <- truediv max_width img_width ;;
     height_ratio <- truediv max_height img_height ;;
     let scale_factor := float_min width_ratio height_ratio in
     let new_width := (float_of_int img_width * scale_factor)%float in
     let new_height := (float_of_int img_height * scale_factor)%float in
     let x_pos := ((page_width - new_width) / 2)%float in
     let y_pos := ((page_height - new_height) / 2)%float in
     drawImage img_path (joinpath image_folder (name img_path))
               x_pos y_pos new_width new_height ;;
     setFillColorRGB 0.2 0.2 0.2 ;;
     setFont "Helvetica-Bold" 8 ;;
     drawCentredString (page_width / 2) 10
       ("Page " ++ str_nat (i + 1) ++ " of " ++ str_nat total) ;;
     showPage)
    (fun e => print ("Error processing " ++ joinpath image_folder (name img_path)
                     ++ ": " ++ exn_message e)).

Definition create_mobile_optimized_pdf (fs : FileSystem)
    (image_folder output_pdf : string) (title : option string)
    (author : string) : M bool :=
  let image_files :=
    sort_by_name (flat_map (glob fs image_folder) image_extensions) in
  match image_files with
  | [] => print ("No images found in " ++ image_folder) ;; ret false
  | _ :: _ =>
    let '(page_width, page_height) := portrait A5 in
    new_Canvas output_pdf (portrait A5) ;;
    match title with
    | Some (String ch rest) =>
        let title := String ch rest in
        setTitle title ;;
        setAuthor author ;;
        setSubject "Mobile-Optimized Guide" ;;
        setFillColorRGB 0.1 0.1 0.1 ;;
        setFillColorRGB 0.97 0.97 1.0 ;;
        rect 0 0 page_width page_height true ;;
        setFillColorRGB 0.1 0.1 0.1 ;;
        setFont "Helvetica-Bold" 20 ;;
        let title_lines := split newline title in
        for_enumerate
          (fun i line =>
             let y_position :=
               (page_height * 0.65 - float_of_int (Z.of_nat i * 24))%float in
             drawCentredString (page_width / 2) y_position line)
          0 title_lines ;;
        let current_date := today fs in
        setFont "Helvetica" 12 ;;
        drawCentredString (page_width / 2) (page_height * 0.5) current_date ;;
        setFont "Helvetica" 10 ;;
        drawCentredString (page_width / 2) (page_height * 0.45)
                          ("By: " ++ author) ;;
        setFont "Helvetica-Oblique" 8 ;;
        drawCentredString (page_width / 2) (page_height * 0.4)
                          "Mobile-Optimized Version" ;;
        setFont "Helvetica" 8 ;;
        for_enumerate
          (fun i line =>
             drawCentredString (page_width / 2)
               (page_height * 0.3 - float_of_int (Z.of_nat i * 12))%float line)
          0 instructions ;;
        showPage
    | _ => ret tt
    end ;;
    for_enumerate
      (add_image page_width page_height image_folder (List.length image_files))
      0 image_files ;;
    try_except
      (save fs ;;
       print ("Mobile-optimized PDF created successfully: " ++ output_pdf) ;;
       ret true)
      (fun e => print ("Error saving PDF: " ++ exn_message e) ;; ret false)
  end.

Definition default_author : string := "Daniel Rosehill".

Definition wireless_title : string :=
  "Emergency Wireless Notifications" ++ String newline "Configuration Guide".
Definition hfc_title : string :=
  "Home Front Command App" ++ String newline "Configuration Guide".

(** [main], for the script in [base_dir]. *)
Definition main (fs : FileSystem) (base_dir : string) : M unit :=
  let wireless_folder :=
    joinpath (joinpath base_dir "watermarked") "emergency-wireless-notifiers" in
  let hfc_folder := joinpath (joinpath base_dir "watermarked") "hfc-guide" in
  let pdf_dir := joinpath base_dir "pdf_guides" in
  makedirs fs pdf_dir ;;
  let wireless_pdf :=
    joinpath pdf_dir "emergency_wireless_notifications_guide_mobile.pdf" in
  let hfc_pdf := joinpath pdf_dir "hfc_guide_mobile.pdf" in
  (if isdir fs wireless_folder then
     print (String newline
       "Creating mobile-optimized PDF for Emergency Wireless Notifications Guide") ;;
     _ <- create_mobile_optimized_pdf fs wireless_folder wireless_pdf
                                      (Some wireless_title) default_author ;;
     ret tt
   else print ("Error: Watermarked directory not found: " ++ wireless_folder)) ;;
  (if isdir fs hfc_folder then
     print (String newline
       "Creating mobile-optimized PDF for Home Front Command Guide") ;;
     _ <- create_mobile_optimized_pdf fs hfc_folder hfc_pdf
                                      (Some hfc_title) default_author ;;
     ret tt
   else print ("Error: Watermarked directory not found: " ++ hfc_folder)) ;;
  print (String newline ("Mobile-optimized PDFs saved to: " ++ pdf_dir)) ;;
  print "These PDFs are specifically formatted for optimal viewing on mobile devices.".

End CreateMobileOptimizedPdfs.

(** ** Running a script *)

Definition initial_state : State :=
  {| stdout := [];
     c := {| filename := ""; pagesize := (0, 0)%float; info := []; code := []; pages := [] |};
     disk := []; made_dirs := []; unfinished := [] |}.

(** ** Reading runs and documents *)

(** The value of the local variable [image_files] in both conversion
    functions. *)
Definition image_files (fs : FileSystem) (image_folder : string) : list Path :=
  sort_by_name (flat_map (glob fs image_folder) image_extensions).

Definition has_image_extension (p : Path) : bool :=
  existsb (endswith (name p)) image_extensions.

(** The image can be opened, measured and drawn. *)
Definition renders (p : Path) : bool :=
  match on_disk p with
  | image (w, h) None => negb (w =? 0)%Z && negb (h =? 0)%Z
  | _ => false
  end.

(** [list(enumerate(l, i))] *)
Fixpoint enumerate_from {A} (i : nat) (l : list A) : list (nat * A) :=
  match l with
  | [] => []
  | x :: l' => (i, x) :: enumerate_from (S i) l'
  end.

Definition add_pages (cv : Canvas) (new : list page) : Canvas :=
  {| filename := filename cv; pagesize := pagesize cv; info := info cv;
     code := code cv; pages := pages cv ++ new |}.

(** The state after more lines were printed and more pages were closed. *)
Definition advance (st : State) (new : list page) (lines : list string) : State :=
  {| stdout := stdout st ++ lines; c := add_pages (c st) new;
     disk := disk st; made_dirs := made_dirs st;
     unfinished := unfinished st |}.

(** The file drawn on a page, if any. *)
Fixpoint drawn_image (pg : page) : option string :=
  match pg with
  | [] => None
  | DrawImage path _ _ _ _ :: _ => Some path
  | _ :: rest => drawn_image rest
  end.

Definition is_image_page (pg : page) : bool :=
  match drawn_image pg with Some _ => true | None => false end.

Definition image_pages (doc : list page) : list page := filter is_image_page doc.

(** The strings drawn on a page, in drawing order. *)
Fixpoint drawn_strings (pg : page) : list (float * float * string) :=
  match pg with
  | [] => []
  | DrawCentredString x y text :: rest => (x, y, text) :: drawn_strings rest
  | _ :: rest => drawn_strings rest
  end.

(** The text drawn last on a page: on an image page, the page number. *)
Definition page_label (pg : page) : option string :=
  match rev (drawn_strings pg) with
  | (_, _, text) :: _ => Some text
  | [] => None
  end.

Section Placement.

(** Page size and the area left for the image. *)
Variables page_width page_height max_width max_height : float.
Variables img_width img_height : Z.

Definition width_ratio : float := max_width / float_of_int img_width.
Definition height_ratio : float := max_height / float_of_int img_height.
Definition scale_factor : float := float_min width_ratio height_ratio.
Definition new_width : float := float_of_int img_width * scale_factor.
Definition new_height : float := float_of_int img_height * scale_factor.
Definition x_pos : float := (page_width - new_width) / 2.
Definition y_pos : float := (page_height - new_height) / 2.

End Placement.

(** The page each script closes for the image at index [i], when it renders. *)
Definition plain_image_page (page_width page_height : float) (image_folder : string)
    (i : nat) (p : Path) (img_width img_height : Z) : page :=
  let max_width := (page_width - float_of_int (2 * 20))%float in
  let max_height := (page_height - float_of_int (2 * 20))%float in
  [DrawImage (joinpath image_folder (name p))
     (x_pos page_width max_width max_height img_width img_height)
     (y_pos page_height max_width max_height img_width img_height)
     (new_width max_width max_height img_width img_height)
     (new_height max_width max_height img_width img_height);
   SetFont "Helvetica" 8;
   DrawCentredString (page_width / 2) 20 ("Page " ++ str_nat (i + 1))].

Definition optimized_image_page (page_width page_height : float) (image_folder : string)
    (total i : nat) (p : Path) (img_width img_height : Z) : page :=
  let max_width := (page_width - float_of_int (2 * 15))%float in
  let max_height :=
    (page_height - float_of_int (2 * 15) - float_of_int 25)%float in
  [DrawImage (joinpath image_folder (name p))
     (x_pos page_width max_width max_height img_width img_height)
     (y_pos page_height max_width max_height img_width img_height)
     (new_width max_width max_height img_width img_height)
     (new_height max_width max_height img_width img_height);
   SetFillColorRGB 0.2 0.2 0.2;
   SetFont "Helvetica-Bold" 8;
   DrawCentredString (page_width / 2) 10
     ("Page " ++ str_nat (i + 1) ++ " of " ++ str_nat total)].

(** The pages closed for one file: one page when it renders, none otherwise. *)
Definition pages_for (mk : nat -> Path -> Z -> Z -> page) (ip : nat * Path)
  : list page :=
  match on_disk (snd ip) with
  | image (w, h) None =>
      if renders (snd ip) then [mk (fst ip) (snd ip) w h] else []
  | _ => []
  end.

(** What handling one file prints. *)
Definition error_message (p : Path) : string :=
  match on_disk p with
  | image (w, h) draw_error =>
      if ((w =? 0)%Z || (h =? 0)%Z)%bool then "float division by zero"
      else match draw_error with Some msg => msg | None => "" end
  | not_image msg => msg
  end.

Definition lines_for (image_folder : string) (total : nat) (ip : nat * Path)
  : list string :=
  ("Adding image " ++ str_nat (fst ip + 1) ++ "/" ++ str_nat total ++ ": "
     ++ name (snd ip))%string
  :: (if renders (snd ip) then []
      else [("Error processing " ++ joinpath image_folder (name (snd ip)) ++ ": "
               ++ error_message (snd ip))%string]).

(** The title page of each script, for a title that passes [if title:]. *)
Definition plain_title_page (page_width page_height : float) (title : string) : page :=
  [SetFont "Helvetica-Bold" 24;
   DrawCentredString (page_width / 2) (page_height * 0.6) title;
   SetFont "Helvetica" 14;
   DrawCentredString (page_width / 2) (page_height * 0.5) "June 15, 2025";
   SetFont "Helvetica" 12;
   DrawCentredString (page_width / 2) (page_height * 0.45) "By: Daniel Rosehill"].

Definition title_line (page_width page_height : float) (il : nat * string) : op :=
  DrawCentredString (page_width / 2)
    (page_height * 0.65 - float_of_int (Z.of_nat (fst il) * 24)) (snd il).

Definition instruction_line (page_width page_height : float) (il : nat * string) : op :=
  DrawCentredString (page_width / 2)
    (page_height * 0.3 - float_of_int (Z.of_nat (fst il) * 12)) (snd il).

Definition optimized_title_page (current_date author : string)
    (page_width page_height : float) (title : string) : page :=
  [SetFillColorRGB 0.1 0.1 0.1;
   SetFillColorRGB 0.97 0.97 1.0;
   Rect 0 0 page_width page_height true;
   SetFillColorRGB 0.1 0.1 0.1;
   SetFont "Helvetica-Bold" 20]
  ++ map (title_line page_width page_height)
         (enumerate_from 0 (split newline title))
  ++ [SetFont "Helvetica" 12;
      DrawCentredString (page_width / 2) (page_height * 0.5) current_date;
      SetFont "Helvetica" 10;
      DrawCentredString (page_width / 2) (page_height * 0.45)
                        ("By: " ++ author)%string;
      SetFont "Helvetica-Oblique" 8;
      DrawCentredString (page_width / 2) (page_height * 0.4)
                        "Mobile-Optimized Version";
      SetFont "Helvetica" 8]
  ++ map (instruction_line page_width page_height)
         (enumerate_from 0 CreateMobileOptimizedPdfs.instructions).

Definition title_pages (mk : string -> page) (title : option string) : list page :=
  if truthy title then
    match title with Some t => [mk t] | None => [] end
  else [].

Definition optimized_info (title : option string) (author : string)
  : list (string * string) :=
  if truthy title then
    match title with
    | Some t => [("Title", t); ("Author", author);
                 ("Subject", "Mobile-Optimized Guide")]
    | None => []
    end
  else [].

(** The file that a [save] at [output_pdf] leaves unfinished, if any. *)
Definition save_leftover (fs : FileSystem) (output_pdf : string) : list string :=
  if writable fs output_pdf then []
  else if leaves_file fs output_pdf then [output_pdf] else [].

(** The state a conversion leaves when it got as far as [save]. *)
Definition converted (fs : FileSystem) (st : State) (output_pdf : string)
    (size : float * float) (meta : list (string * string)) (doc : list page)
    (lines : list string) (success : string) : State :=
  {| stdout := stdout st ++ lines
               ++ [if writable fs output_pdf then success
                   else ("Error saving PDF: "
                         ++ exn_message (os_error fs output_pdf))%string];
     c := {| filename := output_pdf; pagesize := size; info := meta;
             code := []; pages := doc |};
     disk := disk st ++ (if writable fs output_pdf then [(output_pdf, doc)] else []);
     made_dirs := made_dirs st;
     unfinished := unfinished st ++ save_leftover fs output_pdf |}.

(** The pages of the document each script builds from a folder. *)
Definition plain_document (fs : FileSystem) (image_folder : string)
    (title : option string) : list page :=
  title_pages (plain_title_page (fst A5) (snd A5)) title
  ++ flat_map (pages_for (plain_image_page (fst A5) (snd A5) image_folder))
              (enumerate_from 0 (image_files fs image_folder)).

Definition optimized_document (fs : FileSystem) (image_folder : string)
    (title : option string) (author : string) : list page :=
  let page_width := fst (portrait A5) in
  let page_height := snd (portrait A5) in
  let total := List.length (image_files fs image_folder) in
  title_pages (optimized_title_page (today fs) author page_width page_height) title
  ++ flat_map (pages_for (optimized_image_page page_width page_height
                                               image_folder total))
              (enumerate_from 0 (image_files fs image_folder)).

Definition printed_lines (fs : FileSystem) (image_folder : string) : list string :=
  flat_map (lines_for image_folder (List.length (image_files fs image_folder)))
           (enumerate_from 0 (image_files fs image_folder)).

(** The state after more operators were drawn on the current page. *)
Definition draw (st : State) (ops : list op) : State :=
  {| stdout := stdout st;
     c := {| filename := filename (c st); pagesize := pagesize (c st);
             info := info (c st); code := code (c st) ++ ops;
             pages := pages (c st) |};
     disk := disk st; made_dirs := made_dirs st;
     unfinished := unfinished st |}.

(** The order of [str] on file names. *)
Definition name_le (p q : Path) : Prop := (name p <=? name q)%string = true.
Definition name_lt (p q : Path) : Prop := (name p <? name q)%string = true.

(** The files drawn in a document, page after page. *)
Definition drawn_files (doc : list page) : list string :=
  flat_map (fun pg => match drawn_image pg with Some f => [f] | None => [] end) doc.

(** What is read off an image page: the file drawn and the page number text. *)
Definition page_summary (pg : page) : option string * option string :=
  (drawn_image pg, page_label pg).

(** The placed size as the code computes it: the pixel size times the
    smaller of the two ratios, in floating point. *)
Definition scaled_by_min_ratio (max_width max_height : float)
    (img_width img_height : Z) (placed_width placed_height : float) : Prop :=
  let scale := float_min (max_width / float_of_int img_width)
                         (max_height / float_of_int img_height) in
  placed_width = (float_of_int img_width * scale)%float
  /\ placed_height = (float_of_int img_height * scale)%float.


(** The lower left corner that the code computes for a placed size. *)
Definition centred_on_page
    (page_width page_height x y placed_width placed_height : float) : Prop :=
  x = ((page_width - placed_width) / 2)%float
  /\ y = ((page_height - placed_height) / 2)%float.

(** Every file of [files] that renders has a page of [doc] on which it is
    drawn scaled and centred, and every image drawn on a page of [doc] is such
    a file, drawn scaled and centred. *)
Definition images_centred (doc : list page) (image_folder : string)
    (files : list Path) (page_width page_height max_width max_height : float)
  : Prop :=
  (forall i p w h,
      nth_error files i = Some p -> on_disk p = image (w, h) None ->
      w <> 0%Z -> h <> 0%Z ->
      exists x y placed_width placed_height pg,
        In pg doc
        /\ In (DrawImage (joinpath image_folder (name p))
                         x y placed_width placed_height) pg
        /\ scaled_by_min_ratio max_width max_height w h
                               placed_width placed_height
        /\ centred_on_page page_width page_height x y
                           placed_width placed_height)
  /\ (forall pg f x y placed_width placed_height,
      In pg doc -> In (DrawImage f x y placed_width placed_height) pg ->
      exists i p w h,
        nth_error files i = Some p /\ on_disk p = image (w, h) None
        /\ f = joinpath image_folder (name p)
        /\ scaled_by_min_ratio max_width max_height w h
                               placed_width placed_height
        /\ centred_on_page page_width page_height x y
                           placed_width placed_height).

(** A document made of one title page or none, then [n] image pages. *)
Definition title_then_images (doc : list page) (with_title : bool) (n : nat) : Prop :=
  exists front images,
    doc = front ++ images
    /\ List.length front = (if with_title then 1%nat else 0%nat)
    /\ forallb (fun pg => negb (is_image_page pg)) front = true
    /\ forallb is_image_page images = true
    /\ List.length images = n.

(** The page number text of each script for the image at index [i]. *)
Definition plain_label (i : nat) : string := "Page " ++ str_nat (i + 1).

Definition optimized_label (total i : nat) : string :=
  "Page " ++ str_nat (i + 1) ++ " of " ++ str_nat total.

(** The indexed files of [enumerate(image_files)] whose page gets drawn. *)
Definition rendered_files (fs : FileSystem) (image_folder : string)
  : list (nat * Path) :=
  filter (fun ip => renders (snd ip))
         (enumerate_from 0 (image_files fs image_folder)).

(** The line printed by the [except] clause of the loop for a file. *)
Definition error_line (image_folder : string) (p : Path) : string :=
  "Error processing " ++ joinpath image_folder (name p) ++ ": " ++ error_message p.

(** A run that returned, drew [n] image pages, none of them for the file
    [bad], printed the error line of [bad], and saved what it drew when the
    output could be written. *)
Definition skips_file (run : outcome bool * State) (fs : FileSystem)
    (image_folder output_pdf : string) (title : option string) (bad : Path)
    (n : nat) : Prop :=
  fst run = returned (writable fs output_pdf)
  /\ title_then_images (pages (c (snd run))) (truthy title) n
  /\ (forall pg, In pg (pages (c (snd run))) ->
                 drawn_image pg <> Some (joinpath image_folder (name bad)))
  /\ In (error_line image_folder bad) (stdout (snd run))
  /\ (writable fs output_pdf = true ->
      In (output_pdf, pages (c (snd run))) (disk (snd run))).

(** The strings drawn on the first page of a document, in drawing order. *)
Definition first_page_texts (doc : list page) : list string :=
  map snd (drawn_strings (hd [] doc)).

(** ** Sample folders *)

Definition png (file_name : string) (w h : Z) : Path :=
  {| name := file_name; on_disk := image (w, h) None |}.

Definition corrupt (file_name : string) : Path :=
  {| name := file_name; on_disk := not_image "cannot identify image file" |}.

(** Four folders: [clean] holds three good images, [mixed] two good images
    and a corrupt one, [broken] only corrupt images, [notes] no image. *)
Definition sample_fs : FileSystem :=
  {| scandir := fun folder =>
       if (folder =? "clean")%string then
         Some [png "10.png" 600 800; png "02.png" 1080 1920; png "01.png" 2000 500]
       else if (folder =? "mixed")%string then
         Some [png "10.png" 600 800; corrupt "02.jpg"; png "01.gif" 2000 500;
               corrupt "notes.txt"]
       else if (folder =? "broken")%string then
         Some [corrupt "b.png"; corrupt "a.jpeg"]
       else if (folder =? "notes")%string then
         Some [corrupt "notes.txt"; corrupt "README.md"]
       else None;
     writable := fun _ => true;
     today := "June 15, 2025";
     creatable := fun _ => true;
     os_error := fun path => Exception "OSError" ("[Errno 5] " ++ path);
     leaves_file := fun _ => false;
     writable_inside := fun _ _ _ => eq_refl |}.


(** A checkout in which only the HFC guide has its image folders. *)
Definition hfc_only_fs : FileSystem :=
  {| scandir := fun folder =>
       if (folder =? "repo/watermarked_legible/hfc-guide")%string
          || (folder =? "repo/watermarked/hfc-guide")%string
       then Some [png "01.png" 1080 1920]
       else None;
     writable := fun _ => true;
     today := "June 15, 2025";
     creatable := fun _ => true;
     os_error := fun path => Exception "OSError" ("[Errno 5] " ++ path);
     leaves_file := fun _ => false;
     writable_inside := fun _ _ _ => eq_refl |}.

(** ** Further observations *)

(** The number of images drawn on a page. *)
Fixpoint images_on (pg : page) : nat :=
  match pg with
  | [] => 0
  | DrawImage _ _ _ _ _ :: rest => S (images_on rest)
  | _ :: rest => images_on rest
  end.

(** The sample folders when the disk is full: the output file is opened,
    and writing it fails. *)
Definition full_disk_fs : FileSystem :=
  {| scandir := scandir sample_fs;
     writable := fun _ => false;
     today := today sample_fs;
     creatable := fun _ => true;
     os_error := fun _ => Exception "OSError" "[Errno 28] No space left on device";
     leaves_file := fun _ => true;
     writable_inside := fun _ _ H => False_ind _ (Bool.diff_false_true H) |}.

(** A checkout of the two guides in which [pdf_guides] is a regular file. *)
Definition blocked_fs : FileSystem :=
  {| scandir := fun folder =>
       if (folder =? "repo/watermarked/hfc-guide")%string
          || (folder =? "repo/hfc-guide")%string
       then Some [png "01.png" 1080 1920]
       else None;
     writable := fun _ => false;
     today := "June 15, 2025";
     creatable := fun path => negb (path =? "repo/pdf_guides")%string;
     os_error := fun path =>
       Exception "FileExistsError"
                 ("[Errno 17] File exists: '" ++ path ++ "'");
     leaves_file := fun _ => false;
     writable_inside := fun _ _ H => False_ind _ (Bool.diff_false_true H) |}.

(** ** Observations on [main] *)

(** Whether the sorted list of the files of a folder is not empty. *)
Definition found (fs : FileSystem) (image_folder : string) : bool :=
  match image_files fs image_folder with [] => false | _ => true end.

(** What a call of a conversion function prints: [success] is the line of a
    successful save. *)
Definition conversion_lines (fs : FileSystem) (image_folder output_pdf : string)
    (success : string) : list string :=
  if found fs image_folder then
    printed_lines fs image_folder
    ++ [if writable fs output_pdf then success
        else ("Error saving PDF: "
              ++ exn_message (os_error fs output_pdf))%string]
  else [("No images found in " ++ image_folder)%string].

(** What a call of a conversion function writes, [doc] being its document. *)
Definition written (fs : FileSystem) (image_folder output_pdf : string)
    (doc : list page) : list (string * list page) :=
  if found fs image_folder && writable fs output_pdf then [(output_pdf, doc)]
  else [].

(** The state [st'] is [st] after more lines, files and directories. *)
Definition effect (st st' : State) (lines : list string)
    (files : list (string * list page)) (dirs : list string) : Prop :=
  stdout st' = stdout st ++ lines
  /\ disk st' = disk st ++ files
  /\ made_dirs st' = made_dirs st ++ dirs.

(** The folder that [main] of [create_mobile_pdfs.py] reads a guide from. *)
Definition source_folder (base_dir : string) (source : CreateMobilePdfs.Source)
    (guide : string) : string :=
  match source with
  | CreateMobilePdfs.original => joinpath base_dir guide
  | _ => joinpath (joinpath base_dir (CreateMobilePdfs.source_name source)) guide
  end.

(** What [main] of each script prints for one guide. *)
Definition plain_guide_lines (fs : FileSystem) (image_folder output_pdf : string)
    (heading : string) : list string :=
  if isdir fs image_folder then
    String newline heading
    :: conversion_lines fs image_folder output_pdf
         ("PDF created successfully: " ++ output_pdf)
  else [].

Definition optimized_guide_lines (fs : FileSystem)
    (image_folder output_pdf : string) (heading : string) : list string :=
  if isdir fs image_folder then
    String newline heading
    :: conversion_lines fs image_folder output_pdf
         ("Mobile-optimized PDF created successfully: " ++ output_pdf)
  else [("Error: Watermarked directory not found: " ++ image_folder)%string].

(** A checkout without any image folder. *)
Definition bare_fs : FileSystem :=
  {| scandir := fun _ => None;
     writable := fun _ => true;
     today := "June 15, 2025";
     creatable := fun _ => true;
     os_error := fun path => Exception "OSError" ("[Errno 5] " ++ path);
     leaves_file := fun _ => false;
     writable_inside := fun _ _ _ => eq_refl |}.

(** * Properties *)

(** ** States *)

Lemma advance_nil st : advance st [] [] = st.
Proof.
  destruct st as [out cv dk md uf]; destruct cv as [fn ps inf cd pgs].
  unfold advance, add_pages; simpl. now rewrite !app_nil_r.
Qed.

Lemma advance_advance st new lines new' lines' :
  advance (advance st new lines) new' lines'
  = advance st (new ++ new') (lines ++ lines').
Proof.
  unfold advance, add_pages; simpl. now rewrite !app_assoc.
Qed.

Lemma code_advance st new lines : code (c (advance st new lines)) = code (c st).
Proof. reflexivity. Qed.

(** ** The loop over the image files *)

Section Loop.

Context {A : Type}.
Variable body : nat -> A -> M unit.
Variable closed : nat * A -> list page.
Variable printed : nat * A -> list string.

(** One turn of the loop starts on an empty page, returns normally, and
    leaves an empty page behind. *)
Hypothesis body_turn : forall i x st,
  code (c st) = [] ->
  body i x st = (returned tt, advance st (closed (i, x)) (printed (i, x))).

Lemma for_enumerate_run l : forall i st,
  code (c st) = [] ->
  for_enumerate body i l st
  = (returned tt,
     advance st (flat_map closed (enumerate_from i l))
                (flat_map printed (enumerate_from i l))).
Proof.
  induction l as [|x l IH]; intros i st Hcode; simpl.
  - unfold ret. now rewrite advance_nil.
  - unfold bind. rewrite body_turn by assumption.
    rewrite IH by (now rewrite code_advance).
    now rewrite advance_advance.
Qed.

End Loop.

(** ** One image *)

Ltac run_ops :=
  cbv [bind ret raise try_except print with_canvas emit showPage close_page
       setFont setFillColorRGB rect drawCentredString setInfo setTitle setAuthor
       setSubject new_Canvas advance add_pages
       stdout c disk made_dirs unfinished filename pagesize info code pages].

Lemma plain_add_image page_width page_height image_folder total i p st :
  code (c st) = [] ->
  CreateMobilePdfs.add_image page_width page_height image_folder total i p st
  = (returned tt,
     advance st
       (pages_for (plain_image_page page_width page_height image_folder) (i, p))
       (lines_for image_folder total (i, p))).
Proof.
  intros Hcode.
  destruct st as [out cv dk md uf]; destruct cv as [fn ps inf cd pgs].
  simpl in Hcode; subst cd.
  unfold CreateMobilePdfs.add_image, pages_for, lines_for, error_message, renders,
    plain_image_page, Image_open_size, drawImage, truediv.
  cbn [fst snd].
  destruct (on_disk p) as [[w h] draw_error|msg].
  - run_ops.
    destruct draw_error as [msg|]; destruct (w =? 0)%Z; run_ops;
      try destruct (h =? 0)%Z; run_ops; cbn [negb andb orb app];
      rewrite ?app_nil_r, <- ?app_assoc; reflexivity.
  - run_ops. now rewrite app_nil_r, <- app_assoc.
Qed.

Lemma optimized_add_image page_width page_height image_folder total i p st :
  code (c st) = [] ->
  CreateMobileOptimizedPdfs.add_image page_width page_height image_folder total i p st
  = (returned tt,
     advance st
       (pages_for (optimized_image_page page_width page_height image_folder total)
                  (i, p))
       (lines_for image_folder total (i, p))).
Proof.
  intros Hcode.
  destruct st as [out cv dk md uf]; destruct cv as [fn ps inf cd pgs].
  simpl in Hcode; subst cd.
  unfold CreateMobileOptimizedPdfs.add_image, pages_for, lines_for, error_message,
    renders, optimized_image_page, Image_open_size, drawImage, truediv.
  cbn [fst snd].
  destruct (on_disk p) as [[w h] draw_error|msg].
  - run_ops.
    destruct draw_error as [msg|]; destruct (w =? 0)%Z; run_ops;
      try destruct (h =? 0)%Z; run_ops; cbn [negb andb orb app];
      rewrite ?app_nil_r, <- ?app_assoc; reflexivity.
  - run_ops. now rewrite app_nil_r, <- app_assoc.
Qed.

(** ** A whole conversion *)

Lemma save_run fs st :
  code (c st) = [] ->
  save fs st
  = (if writable fs (filename (c st)) then returned tt
     else raised (os_error fs (filename (c st))),
     {| stdout := stdout st; c := c st;
        disk := disk st ++ (if writable fs (filename (c st))
                            then [(filename (c st), pages (c st))] else []);
        made_dirs := made_dirs st;
        unfinished := unfinished st ++ save_leftover fs (filename (c st)) |}).
Proof.
  intros Hcode. unfold save, save_leftover. rewrite Hcode.
  destruct (writable fs (filename (c st))); now rewrite !app_nil_r.
Qed.

Lemma no_images_plain fs image_folder output_pdf title st :
  image_files fs image_folder = [] ->
  CreateMobilePdfs.create_pdf_from_images fs image_folder output_pdf title st
  = (returned false,
     advance st [] [("No images found in " ++ image_folder)%string]).
Proof.
  intros Hnone. unfold CreateMobilePdfs.create_pdf_from_images.
  fold (image_files fs image_folder). rewrite Hnone.
  destruct st as [out cv dk md uf]; destruct cv as [fn ps inf cd pgs].
  run_ops. now rewrite app_nil_r.
Qed.

Lemma no_images_optimized fs image_folder output_pdf title author st :
  image_files fs image_folder = [] ->
  CreateMobileOptimizedPdfs.create_mobile_optimized_pdf
    fs image_folder output_pdf title author st
  = (returned false,
     advance st [] [("No images found in " ++ image_folder)%string]).
Proof.
  intros Hnone. unfold CreateMobileOptimizedPdfs.create_mobile_optimized_pdf.
  fold (image_files fs image_folder). rewrite Hnone.
  destruct st as [out cv dk md uf]; destruct cv as [fn ps inf cd pgs].
  run_ops. now rewrite app_nil_r.
Qed.

Lemma plain_run fs image_folder output_pdf title st :
  image_files fs image_folder <> [] ->
  CreateMobilePdfs.create_pdf_from_images fs image_folder output_pdf title st
  = (returned (writable fs output_pdf),
     converted fs st output_pdf A5 []
       (plain_document fs image_folder title)
       (printed_lines fs image_folder)
       ("PDF created successfully: " ++ output_pdf)%string).
Proof.
  intros Hsome. unfold CreateMobilePdfs.create_pdf_from_images.
  fold (image_files fs image_folder).
  unfold plain_document, printed_lines, converted.
  destruct (image_files fs image_folder) as [|p0 files]; [congruence|].
  set (l := p0 :: files). clearbody l. clear Hsome p0 files.
  cbv delta [A5] iota beta. cbn [fst snd].
  set (pw := (148 * mm)%float). set (ph := (210 * mm)%float).
  unfold bind at 1. unfold new_Canvas at 1, with_canvas at 1.
  unfold bind at 1.
  assert (Htitle : forall st0, code (c st0) = [] ->
    match title with
    | Some (String ch rest) =>
        setFont "Helvetica-Bold" 24 ;;
        drawCentredString (pw / 2) (ph * 0.6) (String ch rest) ;;
        setFont "Helvetica" 14 ;;
        drawCentredString (pw / 2) (ph * 0.5) "June 15, 2025" ;;
        setFont "Helvetica" 12 ;;
        drawCentredString (pw / 2) (ph * 0.45) "By: Daniel Rosehill" ;;
        showPage
    | _ => ret tt
    end st0
    = (returned tt, advance st0 (title_pages (plain_title_page pw ph) title) [])).
  { intros st0 H0. destruct st0 as [out cv dk md uf]; destruct cv as [fn ps inf cd pgs].
    simpl in H0; subst cd.
    destruct title as [[|ch rest]|]; unfold title_pages, truthy, plain_title_page;
      run_ops; now rewrite !app_nil_r. }
  rewrite Htitle by reflexivity.
  unfold bind at 1.
  rewrite (for_enumerate_run _ _ _
             (fun i x st0 H => plain_add_image pw ph image_folder _ i x st0 H))
    by reflexivity.
  rewrite advance_advance.
  unfold try_except, bind at 1.
  rewrite save_run by reflexivity.
  cbn [filename c advance add_pages stdout disk made_dirs unfinished pages].
  destruct (writable fs output_pdf); run_ops; cbn [app exn_message];
    rewrite ?app_nil_r, <- ?app_assoc; reflexivity.
Qed.

Lemma bind_returned {A B} (m : M A) (k : A -> M B) st a st' :
  m st = (returned a, st') -> bind m k st = k a st'.
Proof. intros H. unfold bind. now rewrite H. Qed.

Lemma emit_run o st : emit o st = (returned tt, draw st [o]).
Proof. reflexivity. Qed.

Lemma draw_draw st ops ops' : draw (draw st ops) ops' = draw st (ops ++ ops').
Proof. unfold draw; simpl. now rewrite app_assoc. Qed.

(** Drawing one string per list element adds one operator each. *)
Lemma for_enumerate_emit {A} (f : nat * A -> op) (l : list A) : forall i st,
  for_enumerate (fun i x => emit (f (i, x))) i l st
  = (returned tt, draw st (map f (enumerate_from i l))).
Proof.
  induction l as [|x l IH]; intros i st.
  - destruct st as [out cv dk md uf]; destruct cv as [fn ps inf cd pgs].
    unfold draw; simpl. unfold ret. now rewrite app_nil_r.
  - simpl. erewrite (bind_returned _ _ _ _ _ (emit_run _ _)).
    rewrite IH. now rewrite draw_draw.
Qed.

Lemma setInfo_run key value st :
  setInfo key value st
  = (returned tt,
     {| stdout := stdout st;
        c := {| filename := filename (c st); pagesize := pagesize (c st);
                info := info (c st) ++ [(key, value)]; code := code (c st);
                pages := pages (c st) |};
        disk := disk st; made_dirs := made_dirs st;
     unfinished := unfinished st |}).
Proof. reflexivity. Qed.

Lemma new_Canvas_run output_pdf size st :
  new_Canvas output_pdf size st
  = (returned tt,
     {| stdout := stdout st;
        c := {| filename := output_pdf; pagesize := size;
                info := []; code := []; pages := [] |};
        disk := disk st; made_dirs := made_dirs st;
     unfinished := unfinished st |}).
Proof. reflexivity. Qed.

Tactic Notation "next_op" uconstr(lem) :=
  erewrite (bind_returned _ _ _ _ _ lem); rewrite ?draw_draw.

Lemma optimized_title_run (fs : FileSystem) (author : string) (pw ph : float)
    (t : string) st :
  code (c st) = [] ->
  (setTitle t ;;
   setAuthor author ;;
   setSubject "Mobile-Optimized Guide" ;;
   setFillColorRGB 0.1 0.1 0.1 ;;
   setFillColorRGB 0.97 0.97 1.0 ;;
   rect 0 0 pw ph true ;;
   setFillColorRGB 0.1 0.1 0.1 ;;
   setFont "Helvetica-Bold" 20 ;;
   for_enumerate
     (fun i line =>
        drawCentredString (pw / 2)
          (ph * 0.65 - float_of_int (Z.of_nat i * 24))%float line)
     0 (split newline t) ;;
   setFont "Helvetica" 12 ;;
   drawCentredString (pw / 2) (ph * 0.5) (today fs) ;;
   setFont "Helvetica" 10 ;;
   drawCentredString (pw / 2) (ph * 0.45) ("By: " ++ author) ;;
   setFont "Helvetica-Oblique" 8 ;;
   drawCentredString (pw / 2) (ph * 0.4) "Mobile-Optimized Version" ;;
   setFont "Helvetica" 8 ;;
   for_enumerate
     (fun i line =>
        drawCentredString (pw / 2)
          (ph * 0.3 - float_of_int (Z.of_nat i * 12))%float line)
     0 CreateMobileOptimizedPdfs.instructions ;;
   showPage) st
  = (returned tt,
     {| stdout := stdout st;
        c := {| filename := filename (c st); pagesize := pagesize (c st);
                info := info (c st)
                        ++ [("Title", t); ("Author", author);
                            ("Subject", "Mobile-Optimized Guide")];
                code := [];
                pages := pages (c st)
                         ++ [optimized_title_page (today fs) author pw ph t] |};
        disk := disk st; made_dirs := made_dirs st;
     unfinished := unfinished st |}).
Proof.
  intros Hcode.
  destruct st as [out cv dk md uf]; destruct cv as [fn ps inf cd pgs].
  cbv [code c] in Hcode. subst cd.
  unfold setTitle, setAuthor, setSubject.
  do 3 (erewrite (bind_returned _ _ _ _ _ (setInfo_run _ _ _));
        cbv beta iota delta [stdout c disk made_dirs unfinished
                             filename pagesize info code pages]).
  unfold setFillColorRGB, rect, setFont, drawCentredString.
  do 5 next_op (emit_run _ _).
  change (fun (i : nat) (line : string) =>
            emit (DrawCentredString (pw / 2)
                    (ph * 0.65 - float_of_int (Z.of_nat i * 24))%float line))
    with (fun i line => emit (title_line pw ph (i, line))).
  next_op (for_enumerate_emit _ _ _ _).
  do 7 next_op (emit_run _ _).
  change (fun (i : nat) (line : string) =>
            emit (DrawCentredString (pw / 2)
                    (ph * 0.3 - float_of_int (Z.of_nat i * 12))%float line))
    with (fun i line => emit (instruction_line pw ph (i, line))).
  next_op (for_enumerate_emit _ _ _ _).
  unfold showPage, with_canvas, close_page, draw, optimized_title_page.
  cbv beta iota delta [stdout c disk made_dirs unfinished filename pagesize info code pages].
  rewrite <- !app_assoc. reflexivity.
Qed.

Lemma ret_run {A} (a : A) st : ret a st = (returned a, st).
Proof. reflexivity. Qed.

(** The loop over the files followed by the guarded [save]. *)
Lemma loop_and_save fs (body : nat -> Path -> M unit) closed printed success l st :
  (forall i x st0, code (c st0) = [] ->
     body i x st0 = (returned tt, advance st0 (closed (i, x)) (printed (i, x)))) ->
  code (c st) = [] ->
  (for_enumerate body 0 l ;;
   try_except
     (save fs ;; print success ;; ret true)
     (fun e => print ("Error saving PDF: " ++ exn_message e) ;; ret false)) st
  = (returned (writable fs (filename (c st))),
     {| stdout := stdout st ++ flat_map printed (enumerate_from 0 l)
                  ++ [if writable fs (filename (c st)) then success
                      else ("Error saving PDF: "
                            ++ exn_message (os_error fs (filename (c st))))%string];
        c := add_pages (c st) (flat_map closed (enumerate_from 0 l));
        disk := disk st
                ++ (if writable fs (filename (c st))
                    then [(filename (c st),
                           pages (c st) ++ flat_map closed (enumerate_from 0 l))]
                    else []);
        made_dirs := made_dirs st;
        unfinished := unfinished st ++ save_leftover fs (filename (c st)) |}).
Proof.
  intros Hbody Hcode.
  erewrite (bind_returned _ _ _ _ _ (for_enumerate_run body closed printed Hbody l 0 st Hcode)).
  unfold try_except, bind at 1.
  rewrite save_run by (now rewrite code_advance).
  destruct st as [out cv dk md uf]; destruct cv as [fn ps inf cd pgs].
  cbv beta iota delta [advance add_pages stdout c disk made_dirs unfinished
                       filename pagesize info code pages].
  destruct (writable fs fn);
    cbv beta iota delta [bind print ret stdout c disk made_dirs unfinished exn_message];
    rewrite ?app_nil_r, <- ?app_assoc; reflexivity.
Qed.

Lemma optimized_run fs image_folder output_pdf title author st :
  image_files fs image_folder <> [] ->
  CreateMobileOptimizedPdfs.create_mobile_optimized_pdf
    fs image_folder output_pdf title author st
  = (returned (writable fs output_pdf),
     converted fs st output_pdf (portrait A5) (optimized_info title author)
       (optimized_document fs image_folder title author)
       (printed_lines fs image_folder)
       ("Mobile-optimized PDF created successfully: " ++ output_pdf)%string).
Proof.
  intros Hsome. unfold CreateMobileOptimizedPdfs.create_mobile_optimized_pdf.
  fold (image_files fs image_folder).
  unfold optimized_document, printed_lines, converted.
  destruct (image_files fs image_folder) as [|p0 files]; [congruence|].
  set (l := p0 :: files). clearbody l. clear Hsome p0 files.
  cbv zeta. destruct (portrait A5) as [pw ph]. cbn [fst snd].
  erewrite (bind_returned _ _ _ _ _ (new_Canvas_run _ _ _)).
  destruct title as [[|ch rest]|]; cbv zeta.
  - erewrite (bind_returned _ _ _ _ _ (ret_run _ _)).
    erewrite (loop_and_save fs _
                (pages_for (optimized_image_page pw ph image_folder (List.length l)))
                (lines_for image_folder (List.length l)) _ l _
                (fun i x st0 H => optimized_add_image pw ph image_folder _ i x st0 H))
      by reflexivity.
    destruct st as [out cv dk md uf]. reflexivity.
  - match goal with
    | |- bind _ _ ?s = _ =>
        rewrite (bind_returned _ _ _ _ _
                   (optimized_title_run fs author pw ph (String ch rest) s eq_refl))
    end.
    erewrite (loop_and_save fs _
                (pages_for (optimized_image_page pw ph image_folder (List.length l)))
                (lines_for image_folder (List.length l)) _ l _
                (fun i x st0 H => optimized_add_image pw ph image_folder _ i x st0 H))
      by reflexivity.
    destruct st as [out cv dk md uf]. reflexivity.
  - erewrite (bind_returned _ _ _ _ _ (ret_run _ _)).
    erewrite (loop_and_save fs _
                (pages_for (optimized_image_page pw ph image_folder (List.length l)))
                (lines_for image_folder (List.length l)) _ l _
                (fun i x st0 H => optimized_add_image pw ph image_folder _ i x st0 H))
      by reflexivity.
    destruct st as [out cv dk md uf]. reflexivity.
Qed.

(** ** Order of file names *)

Lemma ascii_compare_refl a : Ascii.compare a a = Eq.
Proof. unfold Ascii.compare. apply N.compare_refl. Qed.

Lemma ascii_compare_lt_trans a b d :
  Ascii.compare a b = Lt -> Ascii.compare b d = Lt -> Ascii.compare a d = Lt.
Proof.
  unfold Ascii.compare. rewrite !N.compare_lt_iff. apply N.lt_trans.
Qed.

Lemma string_compare_refl s : String.compare s s = Eq.
Proof.
  induction s as [|a s IH]; simpl; [reflexivity|].
  now rewrite ascii_compare_refl.
Qed.

Lemma string_compare_lt_trans : forall s t u,
  String.compare s t = Lt -> String.compare t u = Lt -> String.compare s u = Lt.
Proof.
  induction s as [|a s IH]; intros [|b t] [|d u]; simpl; try congruence.
  destruct (Ascii.compare a b) eqn:Hab; try discriminate.
  - apply Ascii.compare_eq_iff in Hab; subst b.
    destruct (Ascii.compare a d) eqn:Had; try congruence. apply IH.
  - destruct (Ascii.compare b d) eqn:Hbd; try discriminate.
    + apply Ascii.compare_eq_iff in Hbd; subst d. now rewrite Hab.
    + now rewrite (ascii_compare_lt_trans _ _ _ Hab Hbd).
Qed.

Lemma string_leb_trans s t u :
  (s <=? t)%string = true -> (t <=? u)%string = true -> (s <=? u)%string = true.
Proof.
  unfold String.leb.
  destruct (String.compare s t) eqn:Hst; try discriminate;
    destruct (String.compare t u) eqn:Htu; try discriminate; intros _ _.
  - apply String.compare_eq_iff in Hst; subst t. now rewrite Htu.
  - apply String.compare_eq_iff in Hst; subst t. now rewrite Htu.
  - apply String.compare_eq_iff in Htu; subst u. now rewrite Hst.
  - now rewrite (string_compare_lt_trans _ _ _ Hst Htu).
Qed.

Lemma string_ltb_leb s t : (s <? t)%string = true -> (s <=? t)%string = true.
Proof. unfold String.ltb, String.leb. now destruct (String.compare s t). Qed.

Lemma string_leb_neq_ltb s t :
  (s <=? t)%string = true -> s <> t -> (s <? t)%string = true.
Proof.
  unfold String.ltb, String.leb.
  destruct (String.compare s t) eqn:H; try discriminate; [|reflexivity].
  apply String.compare_eq_iff in H. congruence.
Qed.

Lemma string_ltb_irrefl s : (s <? s)%string = false.
Proof. unfold String.ltb. now rewrite string_compare_refl. Qed.

(** ** The sort *)

Lemma name_le_trans : Transitive name_le.
Proof. intros p q r. apply string_leb_trans. Qed.

Lemma insert_by_name_perm p l : Permutation (insert_by_name p l) (p :: l).
Proof.
  induction l as [|q l IH]; simpl; [reflexivity|].
  destruct (name p <=? name q)%string; [reflexivity|].
  rewrite IH. apply perm_swap.
Qed.

Lemma sort_by_name_perm l : Permutation (sort_by_name l) l.
Proof.
  induction l as [|p l IH]; simpl; [reflexivity|].
  rewrite insert_by_name_perm. now constructor.
Qed.

Lemma insert_by_name_sorted p l :
  Sorted name_le l -> Sorted name_le (insert_by_name p l).
Proof.
  induction l as [|q l IH]; intros Hs; simpl.
  - repeat constructor.
  - destruct (name p <=? name q)%string eqn:Hpq.
    + constructor; [assumption|]. now constructor.
    + inversion Hs as [|? ? Hl Hhd]; subst.
      assert (Hqp : name_le q p).
      { destruct (String.leb_total (name p) (name q)); [congruence|assumption]. }
      constructor; [now apply IH|].
      destruct l as [|r l]; simpl.
      * now constructor.
      * destruct (name p <=? name r)%string; constructor; trivial.
        now inversion Hhd.
Qed.

Lemma sort_by_name_sorted l : StronglySorted name_le (sort_by_name l).
Proof.
  apply Sorted_StronglySorted; [exact name_le_trans|].
  induction l as [|p l IH]; simpl; [constructor|].
  now apply insert_by_name_sorted.
Qed.

(** With distinct names the sorted order is strict. *)
Lemma sorted_distinct_strict l :
  NoDup (map name l) -> StronglySorted name_le l -> StronglySorted name_lt l.
Proof.
  induction l as [|p l IH]; intros Hnd Hs; [constructor|].
  inversion Hnd as [|? ? Hnotin Hnd']; subst.
  apply StronglySorted_inv in Hs as [Hs Hall].
  constructor; [now apply IH|].
  rewrite Forall_forall in *. intros q Hq.
  apply string_leb_neq_ltb; [now apply Hall|].
  intros Heq. apply Hnotin. rewrite Heq. now apply in_map.
Qed.

(** A set of files with distinct names has one sorted arrangement. *)
Lemma sorted_unique : forall l1 l2,
  NoDup (map name l1) -> Permutation l1 l2 ->
  StronglySorted name_le l1 -> StronglySorted name_le l2 -> l1 = l2.
Proof.
  induction l1 as [|a l1 IH]; intros l2 Hnd Hperm Hs1 Hs2.
  - now apply Permutation_nil in Hperm.
  - destruct l2 as [|b l2].
    { apply Permutation_sym, Permutation_nil in Hperm. discriminate. }
    inversion Hnd as [|? ? Hnotin Hnd']; subst.
    apply StronglySorted_inv in Hs1 as [Hs1 Hall1].
    apply StronglySorted_inv in Hs2 as [Hs2 Hall2].
    rewrite Forall_forall in Hall1, Hall2.
    assert (Hab : a = b).
    { assert (Ha : In a (b :: l2)) by (eapply Permutation_in; [eassumption|now left]).
      assert (Hb : In b (a :: l1))
        by (eapply Permutation_in; [apply Permutation_sym; eassumption|now left]).
      destruct Ha as [Ha|Ha]; [now symmetry|].
      destruct Hb as [Hb|Hb]; [assumption|].
      exfalso. apply Hnotin.
      rewrite (String.leb_antisym _ _ (Hall1 b Hb) (Hall2 a Ha)).
      now apply in_map. }
    subst b. f_equal. apply IH; trivial.
    now apply Permutation_cons_inv in Hperm.
Qed.

Lemma sort_by_name_order_free l1 l2 :
  NoDup (map name l1) -> Permutation l1 l2 -> sort_by_name l1 = sort_by_name l2.
Proof.
  intros Hnd Hperm. apply sorted_unique.
  - eapply Permutation_NoDup; [|exact Hnd].
    apply Permutation_map, Permutation_sym, sort_by_name_perm.
  - rewrite sort_by_name_perm, Hperm. symmetry. apply sort_by_name_perm.
  - apply sort_by_name_sorted.
  - apply sort_by_name_sorted.
Qed.

(** ** The globs *)

(** No file name ends in two of the four extensions. *)
Lemma one_extension n e1 e2 :
  In e1 image_extensions -> In e2 image_extensions ->
  endswith n e1 = true -> endswith n e2 = true -> e1 = e2.
Proof.
  unfold image_extensions, endswith. generalize (reverse n) as r.
  intros r H1 H2.
  simpl in H1, H2.
  repeat match goal with H : _ \/ _ |- _ => destruct H | H : False |- _ => destruct H end;
    subst; trivial;
    cbn [reverse append];
    destruct r as [|a [|b r]]; cbn [startswith andb]; try discriminate;
    repeat match goal with
           | |- context [Ascii.eqb ?x ?y] => destruct (Ascii.eqb_spec x y)
           end;
    subst; cbn [andb]; try discriminate; congruence.
Qed.

Lemma filter_disjoint_perm {A} (f g : A -> bool) (l : list A) :
  (forall x, f x = true -> g x = true -> False) ->
  Permutation (filter f l ++ filter g l) (filter (fun x => f x || g x) l).
Proof.
  intros Hdisj. induction l as [|x l IH]; simpl; [reflexivity|].
  destruct (f x) eqn:Hf, (g x) eqn:Hg; simpl.
  - exfalso. eauto.
  - now constructor.
  - rewrite <- IH. symmetry. apply Permutation_middle.
  - assumption.
Qed.

Lemma globbed_perm fs image_folder entries :
  scandir fs image_folder = Some entries ->
  Permutation (flat_map (glob fs image_folder) image_extensions)
              (filter has_image_extension entries).
Proof.
  intros Hdir.
  rewrite (filter_ext has_image_extension (fun p =>
      endswith (name p) ".png"
      || (endswith (name p) ".jpg"
          || (endswith (name p) ".jpeg" || endswith (name p) ".gif"))))
    by (intros p; unfold has_image_extension, image_extensions;
        cbn [existsb]; now rewrite orb_false_r).
  unfold glob, image_extensions. rewrite Hdir.
  cbn [flat_map]. rewrite app_nil_r.
  assert (Hone := fun n e1 e2 => one_extension n e1 e2).
  unfold image_extensions in Hone.
  rewrite <- (filter_disjoint_perm (fun p => endswith (name p) ".png")).
  2:{ intros p Hp Hq. rewrite !orb_true_iff in Hq.
      destruct Hq as [Hq|[Hq|Hq]];
        [ specialize (Hone (name p) ".png" ".jpg")
        | specialize (Hone (name p) ".png" ".jpeg")
        | specialize (Hone (name p) ".png" ".gif") ];
        simpl in Hone; assert (E := Hone ltac:(tauto) ltac:(tauto) Hp Hq);
        discriminate. }
  apply Permutation_app_head.
  rewrite <- (filter_disjoint_perm (fun p => endswith (name p) ".jpg")).
  2:{ intros p Hp Hq. rewrite !orb_true_iff in Hq.
      destruct Hq as [Hq|Hq];
        [ specialize (Hone (name p) ".jpg" ".jpeg")
        | specialize (Hone (name p) ".jpg" ".gif") ];
        simpl in Hone; assert (E := Hone ltac:(tauto) ltac:(tauto) Hp Hq);
        discriminate. }
  apply Permutation_app_head.
  rewrite <- (filter_disjoint_perm (fun p => endswith (name p) ".jpeg")).
  2:{ intros p Hp Hq. specialize (Hone (name p) ".jpeg" ".gif").
      simpl in Hone. assert (E := Hone ltac:(tauto) ltac:(tauto) Hp Hq).
      discriminate. }
  reflexivity.
Qed.

Lemma image_files_perm fs image_folder entries :
  scandir fs image_folder = Some entries ->
  Permutation (image_files fs image_folder) (filter has_image_extension entries).
Proof.
  intros Hdir. unfold image_files.
  rewrite sort_by_name_perm. now apply globbed_perm.
Qed.

Lemma image_files_missing fs image_folder :
  scandir fs image_folder = None -> image_files fs image_folder = [].
Proof.
  intros Hdir. unfold image_files, glob, image_extensions. now rewrite Hdir.
Qed.

(** ** Pages of a document *)

Lemma enumerate_nth {A} (l : list A) : forall i k x,
  nth_error l k = Some x -> In ((i + k)%nat, x) (enumerate_from i l).
Proof.
  induction l as [|y l IH]; intros i [|k] x H; simpl in *; try discriminate.
  - injection H as ->. left. now rewrite Nat.add_0_r.
  - right. rewrite <- Nat.add_succ_comm. now apply IH.
Qed.

Lemma enumerate_snd {A} (l : list A) : forall i,
  map snd (enumerate_from i l) = l.
Proof. induction l as [|y l IH]; intros i; simpl; [reflexivity|]. now rewrite IH. Qed.

Lemma pages_for_renders mk ip :
  pages_for mk ip
  = if renders (snd ip)
    then match on_disk (snd ip) with
         | image (w, h) _ => [mk (fst ip) (snd ip) w h]
         | not_image _ => []
         end
    else [].
Proof.
  unfold pages_for, renders.
  destruct (on_disk (snd ip)) as [[w h] [msg|]|msg]; reflexivity.
Qed.

Lemma rendered_page_present mk l i p w h :
  nth_error l i = Some p -> on_disk p = image (w, h) None ->
  w <> 0%Z -> h <> 0%Z ->
  In (mk i p w h) (flat_map (pages_for mk) (enumerate_from 0 l)).
Proof.
  intros Hnth Hdisk Hw Hh. apply in_flat_map.
  exists (i, p). split; [now apply (enumerate_nth l 0 i)|].
  unfold pages_for, renders. cbn [fst snd]. rewrite Hdisk.
  apply Z.eqb_neq in Hw, Hh. rewrite Hw, Hh. now left.
Qed.

Lemma pages_for_count mk l : forall i,
  List.length (flat_map (pages_for mk) (enumerate_from i l))
  = List.length (filter renders l).
Proof.
  induction l as [|p l IH]; intros i; simpl; [reflexivity|].
  rewrite length_app, IH, pages_for_renders. cbn [fst snd].
  destruct (renders p) eqn:Hr; [|reflexivity].
  unfold renders in Hr. now destruct (on_disk p) as [[w h] d|].
Qed.

Lemma image_pages_app a b : image_pages (a ++ b) = image_pages a ++ image_pages b.
Proof. apply filter_app. Qed.

Lemma pages_for_image_pages mk l :
  (forall i p w h, is_image_page (mk i p w h) = true) ->
  forall i,
  image_pages (flat_map (pages_for mk) (enumerate_from i l))
  = flat_map (pages_for mk) (enumerate_from i l).
Proof.
  intros Hmk. induction l as [|p l IH]; intros i; simpl; [reflexivity|].
  rewrite image_pages_app, IH. f_equal.
  rewrite pages_for_renders. cbn [fst snd].
  destruct (renders p); [|reflexivity].
  destruct (on_disk p) as [[w h] d|]; [|reflexivity].
  unfold image_pages. simpl. now rewrite Hmk.
Qed.

Lemma drawn_image_app a b :
  drawn_image (a ++ b)
  = match drawn_image a with Some f => Some f | None => drawn_image b end.
Proof.
  induction a as [|o a IH]; simpl; [reflexivity|]. now destruct o.
Qed.

Lemma drawn_image_strings (f : nat * string -> op) l :
  (forall il, exists x y text, f il = DrawCentredString x y text) ->
  drawn_image (map f l) = None.
Proof.
  intros Hf. induction l as [|il l IH]; simpl; [reflexivity|].
  destruct (Hf il) as (x & y & text & ->). exact IH.
Qed.

Lemma plain_title_not_image pw ph t : is_image_page (plain_title_page pw ph t) = false.
Proof. reflexivity. Qed.

Lemma optimized_title_not_image today author pw ph t :
  is_image_page (optimized_title_page today author pw ph t) = false.
Proof.
  unfold is_image_page, optimized_title_page.
  rewrite !drawn_image_app.
  rewrite !drawn_image_strings; [reflexivity| |];
    intros il; unfold instruction_line, title_line; eauto.
Qed.

Lemma title_pages_count mk title :
  List.length (title_pages mk title) = if truthy title then 1%nat else 0%nat.
Proof. unfold title_pages. destruct title as [[|ch rest]|]; reflexivity. Qed.

Lemma title_pages_not_image mk title :
  (forall t, is_image_page (mk t) = false) ->
  image_pages (title_pages mk title) = [].
Proof.
  intros Hmk. unfold title_pages.
  destruct title as [[|ch rest]|]; simpl; trivial.
  unfold image_pages. simpl. now rewrite Hmk.
Qed.

(** ** Where the page of an image is *)

Lemma some_file_not_empty {A} (l : list A) i x : nth_error l i = Some x -> l <> [].
Proof. destruct l; [destruct i; discriminate|discriminate]. Qed.

Lemma plain_page_drawn fs image_folder output_pdf title st i p w h :
  nth_error (image_files fs image_folder) i = Some p ->
  on_disk p = image (w, h) None -> w <> 0%Z -> h <> 0%Z ->
  In (plain_image_page (fst A5) (snd A5) image_folder i p w h)
     (pages (c (snd (CreateMobilePdfs.create_pdf_from_images
                       fs image_folder output_pdf title st)))).
Proof.
  intros Hnth Hdisk Hw Hh.
  rewrite plain_run by (eapply some_file_not_empty; eassumption).
  cbn [snd converted c pages]. unfold plain_document.
  apply in_or_app. right. now apply rendered_page_present.
Qed.

Lemma optimized_page_drawn fs image_folder output_pdf title author st i p w h :
  nth_error (image_files fs image_folder) i = Some p ->
  on_disk p = image (w, h) None -> w <> 0%Z -> h <> 0%Z ->
  In (optimized_image_page (fst (portrait A5)) (snd (portrait A5)) image_folder
        (List.length (image_files fs image_folder)) i p w h)
     (pages (c (snd (CreateMobileOptimizedPdfs.create_mobile_optimized_pdf
                       fs image_folder output_pdf title author st)))).
Proof.
  intros Hnth Hdisk Hw Hh.
  rewrite optimized_run by (eapply some_file_not_empty; eassumption).
  cbn [snd converted c pages]. unfold optimized_document.
  cbv zeta.
  apply in_or_app. right.
  now apply (rendered_page_present
               (optimized_image_page _ _ image_folder
                  (List.length (image_files fs image_folder)))).
Qed.

Lemma drawn_image_in f x y w h pg :
  In (DrawImage f x y w h) pg -> is_image_page pg = true.
Proof.
  unfold is_image_page. induction pg as [|o pg IH]; intros Hin; [destruct Hin|].
  destruct Hin as [->|Hin]; [reflexivity|].
  specialize (IH Hin). destruct o; simpl; trivial.
Qed.

Lemma title_pages_in mk title pg :
  In pg (title_pages mk title) -> exists t, pg = mk t.
Proof.
  unfold title_pages. destruct title as [[|ch rest]|]; simpl; try tauto.
  intros [<-|[]]. eauto.
Qed.

Lemma pages_for_in mk ip pg :
  In pg (pages_for mk ip) ->
  exists w h, pg = mk (fst ip) (snd ip) w h /\ renders (snd ip) = true.
Proof.
  unfold pages_for.
  destruct (on_disk (snd ip)) as [[w h] [msg|]|msg]; simpl; try tauto.
  destruct (renders (snd ip)); simpl; try tauto.
  intros [<-|[]]. eauto.
Qed.

Lemma document_cases mkt mk title l pg :
  In pg (title_pages mkt title ++ flat_map (pages_for mk) l) ->
  (exists t, pg = mkt t)
  \/ (exists i p w h, pg = mk i p w h /\ In (i, p) l /\ renders p = true).
Proof.
  intros Hin. apply in_app_or in Hin. destruct Hin as [Hin|Hin].
  - left. now apply title_pages_in in Hin.
  - right. apply in_flat_map in Hin. destruct Hin as [[i p] [Hl Hin]].
    apply pages_for_in in Hin. destruct Hin as (w & h & -> & Hr).
    exists i, p, w, h. auto.
Qed.

Lemma enumerate_index {A} (l : list A) : forall k i x,
  In (i, x) (enumerate_from k l) -> exists j, i = (k + j)%nat /\ nth_error l j = Some x.
Proof.
  induction l as [|y l IH]; intros k i x Hin; [destruct Hin|].
  destruct Hin as [Heq|Hin].
  - injection Heq as <- <-. exists 0%nat. split; [lia|reflexivity].
  - apply IH in Hin. destruct Hin as (j & -> & Hj).
    exists (S j). split; [lia|exact Hj].
Qed.

Lemma pages_for_size mk ip pg :
  In pg (pages_for mk ip) ->
  exists w h, pg = mk (fst ip) (snd ip) w h /\ on_disk (snd ip) = image (w, h) None.
Proof.
  unfold pages_for.
  destruct (on_disk (snd ip)) as [[w h] [msg|]|msg]; simpl; try tauto.
  destruct (renders (snd ip)); simpl; try tauto.
  intros [<-|[]]. eauto.
Qed.

Lemma placed_as_computed page_width page_height max_width max_height w h :
  scaled_by_min_ratio max_width max_height w h
    (new_width max_width max_height w h) (new_height max_width max_height w h)
  /\ centred_on_page page_width page_height
       (x_pos page_width max_width max_height w h)
       (y_pos page_height max_width max_height w h)
       (new_width max_width max_height w h) (new_height max_width max_height w h).
Proof. repeat split. Qed.

(** The pages of a document are centred image pages, when each image page
    starts with the image, placed as [add_image] computes it. *)
Lemma document_images_centred mkt mk title image_folder files
    page_width page_height max_width max_height :
  (forall t, is_image_page (mkt t) = false) ->
  (forall i p w h, exists rest,
      mk i p w h
      = DrawImage (joinpath image_folder (name p))
          (x_pos page_width max_width max_height w h)
          (y_pos page_height max_width max_height w h)
          (new_width max_width max_height w h)
          (new_height max_width max_height w h) :: rest
      /\ forall o, In o rest -> forall f x y pw ph, o <> DrawImage f x y pw ph) ->
  images_centred
    (title_pages mkt title ++ flat_map (pages_for mk) (enumerate_from 0 files))
    image_folder files page_width page_height max_width max_height.
Proof.
  intros Hmkt Hmk. split.
  - intros i p w h Hnth Hdisk Hw Hh.
    destruct (Hmk i p w h) as (rest & Hpage & _).
    do 4 eexists. exists (mk i p w h).
    split; [apply in_or_app; right; now apply rendered_page_present|].
    split; [rewrite Hpage; left; reflexivity|].
    apply placed_as_computed.
  - intros pg f x y nw nh Hpg Hop.
    apply in_app_or in Hpg. destruct Hpg as [Hpg|Hpg].
    + apply title_pages_in in Hpg. destruct Hpg as [t ->].
      apply drawn_image_in in Hop. now rewrite Hmkt in Hop.
    + apply in_flat_map in Hpg. destruct Hpg as [[i p] [Hin Hpg]].
      apply pages_for_size in Hpg. cbn [fst snd] in Hpg.
      destruct Hpg as (w & h & -> & Hdisk).
      apply enumerate_index in Hin. destruct Hin as (j & -> & Hj).
      destruct (Hmk (0 + j)%nat p w h) as (rest & Hpage & Hrest).
      rewrite Hpage in Hop. destruct Hop as [Hop|Hop].
      * injection Hop as <- <- <- <- <-.
        exists j, p, w, h. split; [exact Hj|]. split; [exact Hdisk|].
        split; [reflexivity|]. apply placed_as_computed.
      * exfalso. exact (Hrest _ Hop f x y nw nh eq_refl).
Qed.

Lemma plain_images_centred fs image_folder title :
  images_centred (plain_document fs image_folder title) image_folder
    (image_files fs image_folder) (fst A5) (snd A5)
    (fst A5 - float_of_int (2 * 20)) (snd A5 - float_of_int (2 * 20)).
Proof.
  unfold plain_document. apply document_images_centred.
  - intros t. apply plain_title_not_image.
  - intros i p w h. eexists. split; [reflexivity|].
    intros o [<-|[<-|[]]]; discriminate.
Qed.

Lemma optimized_images_centred fs image_folder title author :
  images_centred (optimized_document fs image_folder title author) image_folder
    (image_files fs image_folder) (fst (portrait A5)) (snd (portrait A5))
    (fst (portrait A5) - float_of_int (2 * 15))
    (snd (portrait A5) - float_of_int (2 * 15) - float_of_int 25).
Proof.
  unfold optimized_document. cbv zeta. apply document_images_centred.
  - intros t. apply optimized_title_not_image.
  - intros i p w h. eexists. split; [reflexivity|].
    intros o [<-|[<-|[<-|[]]]]; discriminate.
Qed.




(** C2. Whenever one of the scripts got past the empty-folder test, every
    file of the sorted list that renders has a page on which it is drawn with
    its pixel size times the scale factor and with its lower left corner at
    x = (page width - placed width) / 2, y = (page height - placed height) / 2;
    and every image drawn on a page of the document is such a file, placed in
    this way.  The arithmetic is the program's, in binary64 floating point. *)
Theorem image_is_centred fs image_folder output_pdf title author st :
  image_files fs image_folder <> [] ->
  images_centred
    (pages (c (snd (CreateMobilePdfs.create_pdf_from_images
                      fs image_folder output_pdf title st))))
    image_folder (image_files fs image_folder) (fst A5) (snd A5)
    (fst A5 - float_of_int (2 * 20)) (snd A5 - float_of_int (2 * 20))
  /\ images_centred
       (pages (c (snd (CreateMobileOptimizedPdfs.create_mobile_optimized_pdf
                         fs image_folder output_pdf title author st))))
       image_folder (image_files fs image_folder)
       (fst (portrait A5)) (snd (portrait A5))
       (fst (portrait A5) - float_of_int (2 * 15))
       (snd (portrait A5) - float_of_int (2 * 15) - float_of_int 25).
Proof.
  intros Hfiles. rewrite plain_run, optimized_run by assumption.
  cbn [snd converted c pages]. split.
  - apply plain_images_centred.
  - apply optimized_images_centred.
Qed.

Lemma image_is_centred_witness :
  image_files sample_fs "clean" <> []
  /\ images_centred
       (pages (c (snd (CreateMobilePdfs.create_pdf_from_images
                         sample_fs "clean" "out.pdf" None initial_state))))
       "clean" (image_files sample_fs "clean") (fst A5) (snd A5)
       (fst A5 - float_of_int (2 * 20)) (snd A5 - float_of_int (2 * 20))
  /\ images_centred
       (pages (c (snd (CreateMobileOptimizedPdfs.create_mobile_optimized_pdf
                         sample_fs "clean" "out.pdf" None "Daniel Rosehill"
                         initial_state))))
       "clean" (image_files sample_fs "clean")
       (fst (portrait A5)) (snd (portrait A5))
       (fst (portrait A5) - float_of_int (2 * 15))
       (snd (portrait A5) - float_of_int (2 * 15) - float_of_int 25).
Proof.
  split.
  - vm_compute. discriminate.
  - apply (image_is_centred sample_fs "clean" "out.pdf" None "Daniel Rosehill"
             initial_state).
    vm_compute. discriminate.
Defined.

(** ** Page numbers *)

Lemma pages_for_summary mk expected (l : list (nat * Path)) :
  (forall i p w h, page_summary (mk i p w h) = expected (i, p)) ->
  map page_summary (flat_map (pages_for mk) l)
  = map expected (filter (fun ip => renders (snd ip)) l).
Proof.
  intros Hmk. induction l as [|[i p] l IH]; simpl; [reflexivity|].
  rewrite map_app, IH, pages_for_renders. cbn [fst snd].
  destruct (renders p) eqn:Hr; [|reflexivity].
  unfold renders in Hr.
  destruct (on_disk p) as [[w h] d|]; simpl; [|discriminate].
  now rewrite Hmk.
Qed.

Lemma plain_image_page_is_image pw ph folder i p w h :
  is_image_page (plain_image_page pw ph folder i p w h) = true.
Proof. reflexivity. Qed.

Lemma optimized_image_page_is_image pw ph folder total i p w h :
  is_image_page (optimized_image_page pw ph folder total i p w h) = true.
Proof. reflexivity. Qed.

Lemma plain_image_pages fs image_folder title :
  image_pages (plain_document fs image_folder title)
  = flat_map (pages_for (plain_image_page (fst A5) (snd A5) image_folder))
             (enumerate_from 0 (image_files fs image_folder)).
Proof.
  unfold plain_document. rewrite image_pages_app.
  rewrite title_pages_not_image by (intros t; apply plain_title_not_image).
  apply pages_for_image_pages. intros. apply plain_image_page_is_image.
Qed.

Lemma optimized_image_pages fs image_folder title author :
  image_pages (optimized_document fs image_folder title author)
  = flat_map (pages_for (optimized_image_page (fst (portrait A5)) (snd (portrait A5))
                           image_folder (List.length (image_files fs image_folder))))
             (enumerate_from 0 (image_files fs image_folder)).
Proof.
  unfold optimized_document. cbv zeta.
  rewrite image_pages_app.
  rewrite title_pages_not_image by (intros t; apply optimized_title_not_image).
  apply pages_for_image_pages. intros. apply optimized_image_page_is_image.
Qed.

(** C6. In the order of the pages, the image pages of a document are the
    pages of the files that render, each showing the file and, as its page
    number, the index of the file in the sorted list [image_files] plus one:
    [Page i+1] in [create_pdf_from_images] and [Page i+1 of N] in
    [create_mobile_optimized_pdf], [N] being the number of files found.  The
    index counts the files that were skipped and does not count a title
    page. *)
Theorem page_number_is_position fs image_folder output_pdf title author st :
  image_files fs image_folder <> [] ->
  map page_summary
      (image_pages (pages (c (snd (CreateMobilePdfs.create_pdf_from_images
                                     fs image_folder output_pdf title st)))))
  = map (fun ip => (Some (joinpath image_folder (name (snd ip))),
                    Some (plain_label (fst ip))))
        (rendered_files fs image_folder)
  /\ map page_summary
      (image_pages (pages (c (snd (CreateMobileOptimizedPdfs.create_mobile_optimized_pdf
                                     fs image_folder output_pdf title author st)))))
  = map (fun ip => (Some (joinpath image_folder (name (snd ip))),
                    Some (optimized_label
                            (List.length (image_files fs image_folder)) (fst ip))))
        (rendered_files fs image_folder).
Proof.
  intros Hfiles. split.
  - rewrite plain_run by assumption. cbn [snd converted c pages].
    rewrite plain_image_pages. now apply pages_for_summary.
  - rewrite optimized_run by assumption. cbn [snd converted c pages].
    rewrite optimized_image_pages. now apply pages_for_summary.
Qed.

(** In the folder [mixed] the second of three files is corrupt: the pages
    are numbered 1 and 3, with or without a title page. *)
Lemma page_number_is_position_witness :
  map page_summary
      (image_pages (pages (c (snd (CreateMobilePdfs.create_pdf_from_images
                                     sample_fs "mixed" "out.pdf" (Some "Guide")
                                     initial_state)))))
  = [(Some "mixed/01.gif", Some "Page 1"); (Some "mixed/10.png", Some "Page 3")]
  /\ map page_summary
      (image_pages (pages (c (snd (CreateMobileOptimizedPdfs.create_mobile_optimized_pdf
                                     sample_fs "mixed" "out.pdf" (Some "Guide")
                                     "Daniel Rosehill" initial_state)))))
  = [(Some "mixed/01.gif", Some "Page 1 of 3");
     (Some "mixed/10.png", Some "Page 3 of 3")].
Proof.
  destruct (page_number_is_position sample_fs "mixed" "out.pdf" (Some "Guide")
              "Daniel Rosehill" initial_state) as [Hplain Hoptimized].
  - vm_compute. discriminate.
  - split; [rewrite Hplain|rewrite Hoptimized]; reflexivity.
Defined.

(** ** Shape of a document *)

Lemma title_pages_front mkt title :
  (forall t, is_image_page (mkt t) = false) ->
  forallb (fun pg => negb (is_image_page pg)) (title_pages mkt title) = true.
Proof.
  intros Hmkt. unfold title_pages.
  destruct title as [[|ch rest]|]; simpl; trivial. now rewrite Hmkt.
Qed.

Lemma pages_for_all_images mk l :
  (forall i p w h, is_image_page (mk i p w h) = true) ->
  forallb is_image_page (flat_map (pages_for mk) l) = true.
Proof.
  intros Hmk. apply forallb_forall. intros pg Hin.
  apply in_flat_map in Hin. destruct Hin as [ip [_ Hin]].
  apply pages_for_in in Hin. destruct Hin as (w & h & -> & _). apply Hmk.
Qed.

Lemma document_shape mkt mk title l :
  (forall t, is_image_page (mkt t) = false) ->
  (forall i p w h, is_image_page (mk i p w h) = true) ->
  title_then_images
    (title_pages mkt title ++ flat_map (pages_for mk) (enumerate_from 0 l))
    (truthy title) (List.length (filter renders l)).
Proof.
  intros Hmkt Hmk.
  exists (title_pages mkt title), (flat_map (pages_for mk) (enumerate_from 0 l)).
  split; [reflexivity|].
  split; [apply title_pages_count|].
  split; [now apply title_pages_front|].
  split; [now apply pages_for_all_images|apply pages_for_count].
Qed.

Lemma plain_shape fs image_folder title :
  title_then_images (plain_document fs image_folder title) (truthy title)
    (List.length (filter renders (image_files fs image_folder))).
Proof.
  unfold plain_document. apply document_shape.
  - intros t. apply plain_title_not_image.
  - intros. apply plain_image_page_is_image.
Qed.

Lemma optimized_shape fs image_folder title author :
  title_then_images (optimized_document fs image_folder title author) (truthy title)
    (List.length (filter renders (image_files fs image_folder))).
Proof.
  unfold optimized_document. cbv zeta.
  apply document_shape.
  - intros t. apply optimized_title_not_image.
  - intros. apply optimized_image_page_is_image.
Qed.

Lemma filter_all {A} (f : A -> bool) l :
  (forall x, In x l -> f x = true) -> filter f l = l.
Proof.
  induction l as [|x l IH]; intros Hall; simpl; [reflexivity|].
  rewrite (Hall x) by now left. f_equal. apply IH. intros y Hy. apply Hall. now right.
Qed.

Lemma filter_none {A} (f : A -> bool) l :
  (forall x, In x l -> f x = false) -> filter f l = [].
Proof.
  induction l as [|x l IH]; intros Hall; simpl; [reflexivity|].
  rewrite (Hall x) by now left. apply IH. intros y Hy. apply Hall. now right.
Qed.

Lemma image_files_in fs image_folder entries p :
  scandir fs image_folder = Some entries ->
  In p (image_files fs image_folder) <->
  In p entries /\ has_image_extension p = true.
Proof.
  intros Hdir. rewrite <- filter_In. split; intros Hin.
  - eapply Permutation_in; [|exact Hin]. now apply image_files_perm.
  - eapply Permutation_in; [|exact Hin].
    apply Permutation_sym. now apply image_files_perm.
Qed.

Lemma image_files_found fs image_folder entries :
  scandir fs image_folder = Some entries ->
  filter has_image_extension entries <> [] ->
  image_files fs image_folder <> [].
Proof.
  intros Hdir Hsome Hnone. apply Hsome.
  apply Permutation_nil. rewrite <- Hnone. now apply image_files_perm.
Qed.

(** C3. When the folder lists [N > 0] files with one of the four extensions,
    all of which render, and the output file can be written, each script
    saves a document made of [N] image pages, with exactly one page that is not
    an image page before them when the title passes the test [if title:]
    (neither [None] nor the empty string), and with no other page when it does
    not. *)
Theorem one_page_per_image fs image_folder output_pdf title author st entries :
  scandir fs image_folder = Some entries ->
  filter has_image_extension entries <> [] ->
  (forall p, In p entries -> has_image_extension p = true -> renders p = true) ->
  writable fs output_pdf = true ->
  (exists doc,
      disk (snd (CreateMobilePdfs.create_pdf_from_images
                   fs image_folder output_pdf title st))
      = disk st ++ [(output_pdf, doc)]
      /\ title_then_images doc (truthy title)
           (List.length (filter has_image_extension entries)))
  /\ (exists doc,
      disk (snd (CreateMobileOptimizedPdfs.create_mobile_optimized_pdf
                   fs image_folder output_pdf title author st))
      = disk st ++ [(output_pdf, doc)]
      /\ title_then_images doc (truthy title)
           (List.length (filter has_image_extension entries))).
Proof.
  intros Hdir Hsome Hall Hw.
  assert (Hfiles : image_files fs image_folder <> [])
    by now apply (image_files_found fs image_folder entries).
  assert (Hcount : List.length (filter renders (image_files fs image_folder))
                   = List.length (filter has_image_extension entries)).
  { rewrite filter_all.
    - apply Permutation_length. now apply image_files_perm.
    - intros p Hp. apply (image_files_in _ _ _ _ Hdir) in Hp.
      now apply Hall. }
  split.
  - exists (plain_document fs image_folder title).
    rewrite plain_run by assumption. cbn [snd converted disk]. rewrite Hw.
    split; [reflexivity|]. rewrite <- Hcount. apply plain_shape.
  - exists (optimized_document fs image_folder title author).
    rewrite optimized_run by assumption. cbn [snd converted disk]. rewrite Hw.
    split; [reflexivity|]. rewrite <- Hcount. apply optimized_shape.
Qed.

(** The folder [clean] has three images: three image pages after one title
    page. *)
Lemma one_page_per_image_witness :
  (exists doc,
      disk (snd (CreateMobilePdfs.create_pdf_from_images
                   sample_fs "clean" "out.pdf" (Some "Guide") initial_state))
      = [("out.pdf", doc)]
      /\ title_then_images doc true 3)
  /\ (exists doc,
      disk (snd (CreateMobileOptimizedPdfs.create_mobile_optimized_pdf
                   sample_fs "clean" "out.pdf" (Some "Guide") "Daniel Rosehill"
                   initial_state))
      = [("out.pdf", doc)]
      /\ title_then_images doc true 3).
Proof.
  apply (one_page_per_image sample_fs "clean" "out.pdf" (Some "Guide")
           "Daniel Rosehill" initial_state
           [png "10.png" 600 800; png "02.png" 1080 1920; png "01.png" 2000 500]).
  - reflexivity.
  - vm_compute. discriminate.
  - intros p [<-|[<-|[<-|[]]]] _; reflexivity.
  - reflexivity.
Defined.

(** ** Folders without images *)

Lemma image_files_none fs image_folder :
  (forall entries p, scandir fs image_folder = Some entries ->
                     In p entries -> has_image_extension p = false) ->
  image_files fs image_folder = [].
Proof.
  intros Hnone. destruct (scandir fs image_folder) as [entries|] eqn:Hdir.
  - apply Permutation_nil.
    rewrite <- (filter_none has_image_extension entries)
      by (intros p; now apply Hnone).
    apply Permutation_sym. now apply image_files_perm.
  - now apply image_files_missing.
Qed.

(** C7. When the folder lists no file whose name ends in [.png], [.jpg],
    [.jpeg] or [.gif] (an absent folder lists nothing), each script returns
    [False] without raising, prints the line [No images found in <folder>] and
    nothing else, and writes no file. *)
Theorem no_images_found fs image_folder output_pdf title author st :
  (forall entries p, scandir fs image_folder = Some entries ->
                     In p entries -> has_image_extension p = false) ->
  (fst (CreateMobilePdfs.create_pdf_from_images fs image_folder output_pdf title st)
   = returned false
   /\ stdout (snd (CreateMobilePdfs.create_pdf_from_images
                     fs image_folder output_pdf title st))
      = stdout st ++ [("No images found in " ++ image_folder)%string]
   /\ disk (snd (CreateMobilePdfs.create_pdf_from_images
                   fs image_folder output_pdf title st))
      = disk st)
  /\ (fst (CreateMobileOptimizedPdfs.create_mobile_optimized_pdf
             fs image_folder output_pdf title author st)
      = returned false
      /\ stdout (snd (CreateMobileOptimizedPdfs.create_mobile_optimized_pdf
                        fs image_folder output_pdf title author st))
         = stdout st ++ [("No images found in " ++ image_folder)%string]
      /\ disk (snd (CreateMobileOptimizedPdfs.create_mobile_optimized_pdf
                      fs image_folder output_pdf title author st))
         = disk st).
Proof.
  intros Hnone. apply image_files_none in Hnone.
  rewrite no_images_plain, no_images_optimized by assumption.
  repeat split.
Qed.

(** The folder [notes] holds two files that are not images. *)
Lemma no_images_found_witness :
  (fst (CreateMobilePdfs.create_pdf_from_images
          sample_fs "notes" "out.pdf" (Some "Guide") initial_state)
   = returned false
   /\ stdout (snd (CreateMobilePdfs.create_pdf_from_images
                     sample_fs "notes" "out.pdf" (Some "Guide") initial_state))
      = ["No images found in notes"]
   /\ disk (snd (CreateMobilePdfs.create_pdf_from_images
                   sample_fs "notes" "out.pdf" (Some "Guide") initial_state))
      = [])
  /\ (fst (CreateMobileOptimizedPdfs.create_mobile_optimized_pdf
             sample_fs "notes" "out.pdf" (Some "Guide") "Daniel Rosehill"
             initial_state)
      = returned false
      /\ stdout (snd (CreateMobileOptimizedPdfs.create_mobile_optimized_pdf
                        sample_fs "notes" "out.pdf" (Some "Guide") "Daniel Rosehill"
                        initial_state))
         = ["No images found in notes"]
      /\ disk (snd (CreateMobileOptimizedPdfs.create_mobile_optimized_pdf
                      sample_fs "notes" "out.pdf" (Some "Guide") "Daniel Rosehill"
                      initial_state))
         = []).
Proof.
  apply (no_images_found sample_fs "notes" "out.pdf" (Some "Guide")
           "Daniel Rosehill" initial_state).
  intros entries p Hdir. vm_compute in Hdir. injection Hdir as <-.
  intros [<-|[<-|[]]]; reflexivity.
Defined.

(** ** Return value *)

Lemma plain_returns fs image_folder output_pdf title st :
  fst (CreateMobilePdfs.create_pdf_from_images fs image_folder output_pdf title st)
  = returned true
  <-> image_files fs image_folder <> [] /\ writable fs output_pdf = true.
Proof.
  destruct (image_files fs image_folder) as [|p l] eqn:Hfiles.
  - rewrite no_images_plain by assumption. cbn [fst].
    split; [discriminate|]. now intros [[] _].
  - rewrite plain_run by (rewrite Hfiles; discriminate). cbn [fst].
    split.
    + intros H. split; [discriminate|congruence].
    + now intros [_ ->].
Qed.

Lemma optimized_returns fs image_folder output_pdf title author st :
  fst (CreateMobileOptimizedPdfs.create_mobile_optimized_pdf
         fs image_folder output_pdf title author st)
  = returned true
  <-> image_files fs image_folder <> [] /\ writable fs output_pdf = true.
Proof.
  destruct (image_files fs image_folder) as [|p l] eqn:Hfiles.
  - rewrite no_images_optimized by assumption. cbn [fst].
    split; [discriminate|]. now intros [[] _].
  - rewrite optimized_run by (rewrite Hfiles; discriminate). cbn [fst].
    split.
    + intros H. split; [discriminate|congruence].
    + now intros [_ ->].
Qed.

(** C10. Each script returns [True] exactly when the sorted list
    [image_files] of matched files is not empty and [save] succeeds.  Whether
    the files render plays no part: when none of them does, and the output can
    be written, the script still returns [True] and saves a document with no
    image page: the title page alone when the title passes [if title:], and no
    page closed by the script otherwise. *)
Theorem returns_true_iff_found_and_saved
    fs image_folder output_pdf title author st :
  (fst (CreateMobilePdfs.create_pdf_from_images fs image_folder output_pdf title st)
   = returned true
   <-> image_files fs image_folder <> [] /\ writable fs output_pdf = true)
  /\ (fst (CreateMobileOptimizedPdfs.create_mobile_optimized_pdf
             fs image_folder output_pdf title author st)
      = returned true
      <-> image_files fs image_folder <> [] /\ writable fs output_pdf = true)
  /\ (image_files fs image_folder <> [] ->
      (forall p, In p (image_files fs image_folder) -> renders p = false) ->
      writable fs output_pdf = true ->
      (fst (CreateMobilePdfs.create_pdf_from_images
              fs image_folder output_pdf title st)
       = returned true
       /\ exists doc,
           disk (snd (CreateMobilePdfs.create_pdf_from_images
                        fs image_folder output_pdf title st))
           = disk st ++ [(output_pdf, doc)]
           /\ title_then_images doc (truthy title) 0)
      /\ (fst (CreateMobileOptimizedPdfs.create_mobile_optimized_pdf
                 fs image_folder output_pdf title author st)
          = returned true
          /\ exists doc,
              disk (snd (CreateMobileOptimizedPdfs.create_mobile_optimized_pdf
                           fs image_folder output_pdf title author st))
              = disk st ++ [(output_pdf, doc)]
              /\ title_then_images doc (truthy title) 0)).
Proof.
  split; [apply plain_returns|]. split; [apply optimized_returns|].
  intros Hfiles Hfail Hw.
  assert (Hcount : List.length (filter renders (image_files fs image_folder)) = 0%nat)
    by now rewrite filter_none.
  split.
  - split; [now apply plain_returns|].
    exists (plain_document fs image_folder title).
    rewrite plain_run by assumption. cbn [snd converted disk]. rewrite Hw.
    split; [reflexivity|]. rewrite <- Hcount. apply plain_shape.
  - split; [now apply optimized_returns|].
    exists (optimized_document fs image_folder title author).
    rewrite optimized_run by assumption. cbn [snd converted disk]. rewrite Hw.
    split; [reflexivity|]. rewrite <- Hcount. apply optimized_shape.
Qed.

(** Both files of the folder [broken] are corrupt. *)
Lemma returns_true_iff_found_and_saved_witness :
  (fst (CreateMobilePdfs.create_pdf_from_images
          sample_fs "broken" "out.pdf" (Some "Guide") initial_state)
   = returned true
   /\ exists doc,
       disk (snd (CreateMobilePdfs.create_pdf_from_images
                    sample_fs "broken" "out.pdf" (Some "Guide") initial_state))
       = [("out.pdf", doc)]
       /\ title_then_images doc true 0)
  /\ (fst (CreateMobileOptimizedPdfs.create_mobile_optimized_pdf
             sample_fs "broken" "out.pdf" (Some "Guide") "Daniel Rosehill"
             initial_state)
      = returned true
      /\ exists doc,
          disk (snd (CreateMobileOptimizedPdfs.create_mobile_optimized_pdf
                       sample_fs "broken" "out.pdf" (Some "Guide") "Daniel Rosehill"
                       initial_state))
          = [("out.pdf", doc)]
          /\ title_then_images doc true 0).
Proof.
  apply (returns_true_iff_found_and_saved sample_fs "broken" "out.pdf"
           (Some "Guide") "Daniel Rosehill" initial_state).
  - vm_compute. discriminate.
  - vm_compute. intros p [<-|[<-|[]]]; reflexivity.
  - reflexivity.
Defined.

(** ** Skipped files *)

Lemma Permutation_filter {A} (f : A -> bool) l l' :
  Permutation l l' -> Permutation (filter f l) (filter f l').
Proof.
  induction 1 as [|x l l' _ IH|x y l|l l' l'' _ IH1 _ IH2]; simpl.
  - constructor.
  - destruct (f x); [now constructor|assumption].
  - destruct (f x), (f y); try reflexivity. constructor.
  - now transitivity (filter f l').
Qed.

Lemma append_inj (s a b : string) : (s ++ a)%string = (s ++ b)%string -> a = b.
Proof.
  induction s as [|ch s IH]; simpl; intros H; [assumption|].
  injection H as H. now apply IH.
Qed.

Lemma joinpath_inj folder a b : joinpath folder a = joinpath folder b -> a = b.
Proof.
  unfold joinpath. intros H. apply append_inj in H. simpl in H. now injection H.
Qed.

Lemma names_inj (l : list Path) p q :
  NoDup (map name l) -> In p l -> In q l -> name p = name q -> p = q.
Proof.
  induction l as [|x l IH]; intros Hnd Hp Hq Hname; [destruct Hp|].
  inversion Hnd as [|? ? Hnotin Hnd']; subst.
  destruct Hp as [->|Hp], Hq as [->|Hq]; trivial.
  - exfalso. apply Hnotin. rewrite Hname. now apply in_map.
  - exfalso. apply Hnotin. rewrite <- Hname. now apply in_map.
  - now apply IH.
Qed.

Lemma enumerate_in {A} (l : list A) x :
  In x l -> exists i, In (i, x) (enumerate_from 0 l).
Proof.
  intros Hin. apply In_nth_error in Hin. destruct Hin as [k Hk].
  exists k. now apply (enumerate_nth l 0 k).
Qed.

Lemma enumerate_member {A} (l : list A) i k x :
  In (i, x) (enumerate_from k l) -> In x l.
Proof.
  intros Hin. rewrite <- (enumerate_snd l k).
  now apply (in_map snd) in Hin.
Qed.

Lemma error_line_printed fs image_folder bad :
  In bad (image_files fs image_folder) -> renders bad = false ->
  In (error_line image_folder bad) (printed_lines fs image_folder).
Proof.
  intros Hin Hr. apply enumerate_in in Hin. destruct Hin as [i Hi].
  unfold printed_lines. apply in_flat_map. exists (i, bad).
  split; [assumption|]. unfold lines_for. cbn [fst snd]. rewrite Hr.
  right. left. reflexivity.
Qed.

Lemma no_page_for_skipped mkt mk image_folder title l bad pg :
  (forall t, is_image_page (mkt t) = false) ->
  (forall i p w h, drawn_image (mk i p w h) = Some (joinpath image_folder (name p))) ->
  NoDup (map name l) -> In bad l -> renders bad = false ->
  In pg (title_pages mkt title ++ flat_map (pages_for mk) (enumerate_from 0 l)) ->
  drawn_image pg <> Some (joinpath image_folder (name bad)).
Proof.
  intros Hmkt Hmk Hnd Hbad Hr Hpg.
  apply document_cases in Hpg.
  destruct Hpg as [[t ->]|(i & p & w & h & -> & Hin & Hrp)].
  - specialize (Hmkt t). unfold is_image_page in Hmkt.
    destruct (drawn_image (mkt t)); [discriminate|discriminate].
  - rewrite Hmk. intros Heq. injection Heq as Heq. apply joinpath_inj in Heq.
    apply enumerate_member in Hin.
    assert (p = bad) by now apply (names_inj l).
    congruence.
Qed.

Lemma NoDup_names_filter (f : Path -> bool) l :
  NoDup (map name l) -> NoDup (map name (filter f l)).
Proof.
  induction l as [|x l IH]; intros Hnd; simpl; [constructor|].
  inversion Hnd as [|? ? Hnotin Hnd']; subst.
  destruct (f x); [|now apply IH].
  simpl. constructor; [|now apply IH].
  intros Hin. apply Hnotin. apply in_map_iff in Hin.
  destruct Hin as (y & Hname & Hy). apply filter_In in Hy.
  rewrite <- Hname. apply in_map. tauto.
Qed.

Lemma image_files_distinct fs image_folder entries :
  scandir fs image_folder = Some entries ->
  NoDup (map name entries) ->
  NoDup (map name (image_files fs image_folder)).
Proof.
  intros Hdir Hnd.
  eapply Permutation_NoDup.
  - apply Permutation_map, Permutation_sym, image_files_perm. eassumption.
  - now apply NoDup_names_filter.
Qed.

(** C5. When the files of the folder with one of the four extensions are two
    files that render and one that does not (file names being distinct), each
    script returns without raising, its document has exactly two image pages,
    no page draws the failing file, the line [Error processing <path>:
    <message>] is printed for it, and the document is what [save] writes when
    the output can be written. *)
Theorem corrupt_image_is_skipped
    fs image_folder output_pdf title author st entries good1 good2 bad :
  scandir fs image_folder = Some entries ->
  NoDup (map name entries) ->
  Permutation (filter has_image_extension entries) [good1; good2; bad] ->
  renders good1 = true -> renders good2 = true -> renders bad = false ->
  skips_file (CreateMobilePdfs.create_pdf_from_images
                fs image_folder output_pdf title st)
             fs image_folder output_pdf title bad 2
  /\ skips_file (CreateMobileOptimizedPdfs.create_mobile_optimized_pdf
                   fs image_folder output_pdf title author st)
                fs image_folder output_pdf title bad 2.
Proof.
  intros Hdir Hnd Hperm Hg1 Hg2 Hbad.
  assert (Hperm3 : Permutation (image_files fs image_folder) [good1; good2; bad]).
  { etransitivity; [|exact Hperm]. now apply image_files_perm. }
  assert (Hfiles : image_files fs image_folder <> []).
  { intros Hnone. rewrite Hnone in Hperm3. now apply Permutation_nil_cons in Hperm3. }
  assert (Hcount : List.length (filter renders (image_files fs image_folder)) = 2%nat).
  { rewrite (Permutation_length (Permutation_filter renders _ _ Hperm3)).
    simpl. now rewrite Hg1, Hg2, Hbad. }
  assert (Hin : In bad (image_files fs image_folder)).
  { eapply Permutation_in; [apply Permutation_sym; exact Hperm3|]. simpl. tauto. }
  assert (Hnames : NoDup (map name (image_files fs image_folder)))
    by now apply (image_files_distinct fs image_folder entries).
  unfold skips_file. split.
  - rewrite plain_run by assumption. cbn [fst snd converted c pages stdout disk].
    split; [reflexivity|].
    split; [rewrite <- Hcount; apply plain_shape|].
    split.
    { intros pg. unfold plain_document.
      apply no_page_for_skipped; trivial; intros t; apply plain_title_not_image. }
    split.
    { apply in_or_app. right. apply in_or_app. left.
      now apply error_line_printed. }
    intros Hw. rewrite Hw. apply in_or_app. right. now left.
  - rewrite optimized_run by assumption.
    cbn [fst snd converted c pages stdout disk].
    split; [reflexivity|].
    split; [rewrite <- Hcount; apply optimized_shape|].
    split.
    { intros pg. unfold optimized_document.
      cbv zeta.
      apply no_page_for_skipped; trivial; intros t; apply optimized_title_not_image. }
    split.
    { apply in_or_app. right. apply in_or_app. left.
      now apply error_line_printed. }
    intros Hw. rewrite Hw. apply in_or_app. right. now left.
Qed.

(** The folder [mixed]: [02.jpg] is corrupt, [01.gif] and [10.png] are not. *)
Lemma corrupt_image_is_skipped_witness :
  skips_file (CreateMobilePdfs.create_pdf_from_images
                sample_fs "mixed" "out.pdf" None initial_state)
             sample_fs "mixed" "out.pdf" None (corrupt "02.jpg") 2
  /\ skips_file (CreateMobileOptimizedPdfs.create_mobile_optimized_pdf
                   sample_fs "mixed" "out.pdf" None "Daniel Rosehill" initial_state)
                sample_fs "mixed" "out.pdf" None (corrupt "02.jpg") 2.
Proof.
  apply (corrupt_image_is_skipped sample_fs "mixed" "out.pdf" None
           "Daniel Rosehill" initial_state
           [png "10.png" 600 800; corrupt "02.jpg"; png "01.gif" 2000 500;
            corrupt "notes.txt"]
           (png "10.png" 600 800) (png "01.gif" 2000 500) (corrupt "02.jpg")).
  - reflexivity.
  - simpl. repeat constructor; simpl; intuition discriminate.
  - vm_compute. apply perm_skip, perm_swap.
  - reflexivity.
  - reflexivity.
  - reflexivity.
Defined.

(** ** Page order *)

Lemma drawn_files_app a b : drawn_files (a ++ b) = drawn_files a ++ drawn_files b.
Proof. apply flat_map_app. Qed.

Lemma drawn_files_title mkt title :
  (forall t, is_image_page (mkt t) = false) ->
  drawn_files (title_pages mkt title) = [].
Proof.
  intros Hmkt. unfold title_pages.
  destruct title as [[|ch rest]|]; simpl; trivial.
  specialize (Hmkt (String ch rest)). unfold is_image_page in Hmkt.
  now destruct (drawn_image (mkt (String ch rest))).
Qed.

Lemma drawn_files_pages mk image_folder l :
  (forall i p w h, drawn_image (mk i p w h) = Some (joinpath image_folder (name p))) ->
  forall i,
  drawn_files (flat_map (pages_for mk) (enumerate_from i l))
  = map (fun p => joinpath image_folder (name p)) (filter renders l).
Proof.
  intros Hmk. induction l as [|p l IH]; intros i; simpl; [reflexivity|].
  rewrite drawn_files_app, IH, pages_for_renders. cbn [fst snd].
  destruct (renders p) eqn:Hr; [|reflexivity].
  unfold renders in Hr.
  destruct (on_disk p) as [[w h] d|]; [|discriminate].
  simpl. now rewrite Hmk.
Qed.

Lemma image_files_order_free fs fs' image_folder entries entries' :
  scandir fs image_folder = Some entries ->
  scandir fs' image_folder = Some entries' ->
  NoDup (map name entries) ->
  Permutation entries entries' ->
  image_files fs' image_folder = image_files fs image_folder.
Proof.
  intros Hdir Hdir' Hnd Hperm. unfold image_files.
  symmetry. apply sort_by_name_order_free.
  - eapply Permutation_NoDup.
    + apply Permutation_map, Permutation_sym, globbed_perm. eassumption.
    + now apply NoDup_names_filter.
  - rewrite (globbed_perm _ _ _ Hdir), (globbed_perm _ _ _ Hdir').
    now apply Permutation_filter.
Qed.

(** C4. With distinct file names, the sorted list [image_files] is strictly
    increasing in the order of [str] on names and is the same for every order
    in which the folder lists its entries; the files drawn by each script,
    page after page, are the files of that list that render, in the order of
    the list. *)
Theorem pages_in_name_order fs image_folder output_pdf title author st entries :
  scandir fs image_folder = Some entries ->
  NoDup (map name entries) ->
  filter has_image_extension entries <> [] ->
  StronglySorted name_lt (image_files fs image_folder)
  /\ (forall fs' entries',
         scandir fs' image_folder = Some entries' ->
         Permutation entries entries' ->
         image_files fs' image_folder = image_files fs image_folder)
  /\ drawn_files (pages (c (snd (CreateMobilePdfs.create_pdf_from_images
                                  fs image_folder output_pdf title st))))
     = map (fun p => joinpath image_folder (name p))
           (filter renders (image_files fs image_folder))
  /\ drawn_files
       (pages (c (snd (CreateMobileOptimizedPdfs.create_mobile_optimized_pdf
                         fs image_folder output_pdf title author st))))
     = map (fun p => joinpath image_folder (name p))
           (filter renders (image_files fs image_folder)).
Proof.
  intros Hdir Hnd Hsome.
  assert (Hfiles : image_files fs image_folder <> [])
    by now apply (image_files_found fs image_folder entries).
  split.
  { apply sorted_distinct_strict.
    - now apply (image_files_distinct fs image_folder entries).
    - apply sort_by_name_sorted. }
  split.
  { intros fs' entries' Hdir' Hperm.
    now apply (image_files_order_free fs fs' image_folder entries entries'). }
  split.
  - rewrite plain_run by assumption. cbn [snd converted c pages].
    unfold plain_document. rewrite drawn_files_app.
    rewrite drawn_files_title by (intros t; apply plain_title_not_image).
    now apply drawn_files_pages.
  - rewrite optimized_run by assumption. cbn [snd converted c pages].
    unfold optimized_document. cbv zeta.
    rewrite drawn_files_app.
    rewrite drawn_files_title by (intros t; apply optimized_title_not_image).
    now apply drawn_files_pages.
Qed.

(** The folder [clean] lists [10.png], [02.png], [01.png] in this order: the
    pages show 01, 02, 10. *)
Lemma pages_in_name_order_witness :
  drawn_files (pages (c (snd (CreateMobilePdfs.create_pdf_from_images
                                sample_fs "clean" "out.pdf" (Some "Guide")
                                initial_state))))
  = ["clean/01.png"; "clean/02.png"; "clean/10.png"]
  /\ drawn_files
       (pages (c (snd (CreateMobileOptimizedPdfs.create_mobile_optimized_pdf
                         sample_fs "clean" "out.pdf" (Some "Guide")
                         "Daniel Rosehill" initial_state))))
     = ["clean/01.png"; "clean/02.png"; "clean/10.png"].
Proof.
  destruct (pages_in_name_order sample_fs "clean" "out.pdf" (Some "Guide")
              "Daniel Rosehill" initial_state
              [png "10.png" 600 800; png "02.png" 1080 1920; png "01.png" 2000 500])
    as (_ & _ & Hplain & Hoptimized).
  - reflexivity.
  - simpl. repeat constructor; simpl; intuition discriminate.
  - vm_compute. discriminate.
  - rewrite Hplain, Hoptimized. split; reflexivity.
Defined.

(** ** The title page *)

(** C8. Called with the two-line title that its own [main] passes,
    [create_pdf_from_images] draws the title with a single [drawCentredString]
    whose text still holds the newline, then the date and the author: the
    title is not drawn one line per segment.  On the same input
    [create_mobile_optimized_pdf] draws the two segments of the title as two
    strings. *)
Theorem title_drawn_as_one_string :
  first_page_texts
    (pages (c (snd (CreateMobilePdfs.create_pdf_from_images
                      sample_fs "clean" "out.pdf"
                      (Some CreateMobilePdfs.wireless_title) initial_state))))
  = [("Emergency Wireless Notifications"
        ++ String newline "Configuration Guide")%string;
     "June 15, 2025"; "By: Daniel Rosehill"]
  /\ split newline CreateMobilePdfs.wireless_title
     = ["Emergency Wireless Notifications"; "Configuration Guide"]
  /\ firstn 2 (first_page_texts
                 (pages (c (snd (CreateMobileOptimizedPdfs.create_mobile_optimized_pdf
                                   sample_fs "clean" "out.pdf"
                                   (Some CreateMobileOptimizedPdfs.wireless_title)
                                   "Daniel Rosehill" initial_state)))))
     = ["Emergency Wireless Notifications"; "Configuration Guide"].
Proof. vm_compute. repeat split. Qed.

(** ** Missing folders *)

(** C9. Run with the default [--source watermarked_legible] in a checkout
    where the folder of the wireless guide is absent and the folder of the HFC
    guide holds one image, [main] of [create_mobile_pdfs.py] converts the HFC
    guide and prints nothing about the absent folder.  In the same situation
    [main] of [create_mobile_optimized_pdfs.py] prints [Error: Watermarked
    directory not found: <folder>] before converting the HFC guide. *)
Theorem missing_folder_not_reported :
  stdout (snd (CreateMobilePdfs.main hfc_only_fs "repo"
                 CreateMobilePdfs.watermarked_legible initial_state))
  = [String newline "Creating PDF for Home Front Command Guide";
     "Adding image 1/1: 01.png";
     "PDF created successfully: repo/pdf_guides/hfc_guide.pdf";
     String newline "PDFs saved to: repo/pdf_guides"]
  /\ map fst (disk (snd (CreateMobilePdfs.main hfc_only_fs "repo"
                           CreateMobilePdfs.watermarked_legible initial_state)))
     = ["repo/pdf_guides/hfc_guide.pdf"]
  /\ stdout (snd (CreateMobileOptimizedPdfs.main hfc_only_fs "repo" initial_state))
     = ["Error: Watermarked directory not found: repo/watermarked/emergency-wireless-notifiers";
        String newline "Creating mobile-optimized PDF for Home Front Command Guide";
        "Adding image 1/1: 01.png";
        "Mobile-optimized PDF created successfully: repo/pdf_guides/hfc_guide_mobile.pdf";
        String newline "Mobile-optimized PDFs saved to: repo/pdf_guides";
        "These PDFs are specifically formatted for optimal viewing on mobile devices."]
  /\ map fst (disk (snd (CreateMobileOptimizedPdfs.main hfc_only_fs "repo"
                           initial_state)))
     = ["repo/pdf_guides/hfc_guide_mobile.pdf"].
Proof. vm_compute. repeat split. Qed.

(** * Further properties of the scripts *)

(** ** A save that fails *)

(** X3. When files were found and [c.save()] raises, each script catches the
    exception: it returns [False], the last line it prints is [Error saving
    PDF: ] followed by the message of the exception, and no document is
    written.  The output file is left empty or truncated when the failure
    came after the file was opened, and is not touched otherwise. *)
Theorem failed_save_is_reported fs image_folder output_pdf title author st :
  image_files fs image_folder <> [] ->
  writable fs output_pdf = false ->
  (fst (CreateMobilePdfs.create_pdf_from_images fs image_folder output_pdf title st)
   = returned false
   /\ disk (snd (CreateMobilePdfs.create_pdf_from_images
                   fs image_folder output_pdf title st))
      = disk st
   /\ unfinished (snd (CreateMobilePdfs.create_pdf_from_images
                         fs image_folder output_pdf title st))
      = unfinished st
        ++ (if leaves_file fs output_pdf then [output_pdf] else [])
   /\ exists lines,
       stdout (snd (CreateMobilePdfs.create_pdf_from_images
                      fs image_folder output_pdf title st))
       = stdout st ++ lines
         ++ [("Error saving PDF: "
              ++ exn_message (os_error fs output_pdf))%string])
  /\ (fst (CreateMobileOptimizedPdfs.create_mobile_optimized_pdf
             fs image_folder output_pdf title author st)
      = returned false
      /\ disk (snd (CreateMobileOptimizedPdfs.create_mobile_optimized_pdf
                      fs image_folder output_pdf title author st))
         = disk st
      /\ unfinished (snd (CreateMobileOptimizedPdfs.create_mobile_optimized_pdf
                            fs image_folder output_pdf title author st))
         = unfinished st
           ++ (if leaves_file fs output_pdf then [output_pdf] else [])
      /\ exists lines,
          stdout (snd (CreateMobileOptimizedPdfs.create_mobile_optimized_pdf
                         fs image_folder output_pdf title author st))
          = stdout st ++ lines
            ++ [("Error saving PDF: "
                 ++ exn_message (os_error fs output_pdf))%string]).
Proof.
  intros Hfiles Hw.
  rewrite plain_run, optimized_run by assumption.
  cbn [fst snd converted stdout disk unfinished]. unfold save_leftover.
  rewrite Hw.
  split; (split; [reflexivity|]); (split; [apply app_nil_r|]);
    (split; [reflexivity|]); exists (printed_lines fs image_folder);
    reflexivity.
Qed.

(** On a full disk the output file is opened and left unfinished. *)
Lemma failed_save_is_reported_witness :
  (fst (CreateMobilePdfs.create_pdf_from_images
          full_disk_fs "clean" "out.pdf" None initial_state)
   = returned false
   /\ disk (snd (CreateMobilePdfs.create_pdf_from_images
                   full_disk_fs "clean" "out.pdf" None initial_state))
      = []
   /\ unfinished (snd (CreateMobilePdfs.create_pdf_from_images
                         full_disk_fs "clean" "out.pdf" None initial_state))
      = ["out.pdf"]
   /\ exists lines,
       stdout (snd (CreateMobilePdfs.create_pdf_from_images
                      full_disk_fs "clean" "out.pdf" None initial_state))
       = [] ++ lines
         ++ ["Error saving PDF: [Errno 28] No space left on device"])
  /\ (fst (CreateMobileOptimizedPdfs.create_mobile_optimized_pdf
             full_disk_fs "clean" "out.pdf" None "Daniel Rosehill" initial_state)
      = returned false
      /\ disk (snd (CreateMobileOptimizedPdfs.create_mobile_optimized_pdf
                      full_disk_fs "clean" "out.pdf" None "Daniel Rosehill"
                      initial_state))
         = []
      /\ unfinished (snd (CreateMobileOptimizedPdfs.create_mobile_optimized_pdf
                            full_disk_fs "clean" "out.pdf" None "Daniel Rosehill"
                            initial_state))
         = ["out.pdf"]
      /\ exists lines,
          stdout (snd (CreateMobileOptimizedPdfs.create_mobile_optimized_pdf
                         full_disk_fs "clean" "out.pdf" None "Daniel Rosehill"
                         initial_state))
          = [] ++ lines
            ++ ["Error saving PDF: [Errno 28] No space left on device"]).
Proof.
  apply (failed_save_is_reported full_disk_fs "clean" "out.pdf" None
           "Daniel Rosehill" initial_state).
  - vm_compute. discriminate.
  - reflexivity.
Defined.

(** ** What a conversion prints *)

(** X4. For every file of the sorted list, whether it renders or not, each
    script prints the progress line [Adding image <i+1>/<N>: <file name>],
    where [i] is the index of the file in the sorted list and [N] the number
    of files found. *)
Theorem progress_line_for_every_file
    fs image_folder output_pdf title author st i p :
  nth_error (image_files fs image_folder) i = Some p ->
  In ("Adding image " ++ str_nat (i + 1) ++ "/"
        ++ str_nat (List.length (image_files fs image_folder)) ++ ": "
        ++ name p)%string
     (stdout (snd (CreateMobilePdfs.create_pdf_from_images
                     fs image_folder output_pdf title st)))
  /\ In ("Adding image " ++ str_nat (i + 1) ++ "/"
           ++ str_nat (List.length (image_files fs image_folder)) ++ ": "
           ++ name p)%string
        (stdout (snd (CreateMobileOptimizedPdfs.create_mobile_optimized_pdf
                        fs image_folder output_pdf title author st))).
Proof.
  intros Hnth.
  assert (Hfiles : image_files fs image_folder <> [])
    by (eapply some_file_not_empty; eassumption).
  assert (Hline : In ("Adding image " ++ str_nat (i + 1) ++ "/"
                        ++ str_nat (List.length (image_files fs image_folder))
                        ++ ": " ++ name p)%string
                     (printed_lines fs image_folder)).
  { unfold printed_lines. apply in_flat_map. exists (i, p).
    split; [now apply (enumerate_nth _ 0 i)|]. left. reflexivity. }
  rewrite plain_run, optimized_run by assumption.
  cbn [snd converted stdout].
  split; apply in_or_app; right; apply in_or_app; left; exact Hline.
Qed.

(** The corrupt second file of the folder [mixed] is announced like the
    others. *)
Lemma progress_line_for_every_file_witness :
  In "Adding image 2/3: 02.jpg"
     (stdout (snd (CreateMobilePdfs.create_pdf_from_images
                     sample_fs "mixed" "out.pdf" None initial_state)))
  /\ In "Adding image 2/3: 02.jpg"
        (stdout (snd (CreateMobileOptimizedPdfs.create_mobile_optimized_pdf
                        sample_fs "mixed" "out.pdf" None "Daniel Rosehill"
                        initial_state))).
Proof.
  apply (progress_line_for_every_file sample_fs "mixed" "out.pdf" None
           "Daniel Rosehill" initial_state 1 (corrupt "02.jpg")).
  reflexivity.
Defined.

(** ** Document metadata *)

(** X5. When files were found, [create_mobile_optimized_pdf] sets the
    document information [Title], [Author] and [Subject] (the latter to
    [Mobile-Optimized Guide]) exactly when the title passes [if title:], and
    sets nothing otherwise; [create_pdf_from_images] never sets any. *)
Theorem metadata_only_with_title fs image_folder output_pdf title author st :
  image_files fs image_folder <> [] ->
  info (c (snd (CreateMobileOptimizedPdfs.create_mobile_optimized_pdf
                  fs image_folder output_pdf title author st)))
  = match title with
    | Some (String ch rest) =>
        [("Title", String ch rest); ("Author", author);
         ("Subject", "Mobile-Optimized Guide")]
    | _ => []
    end
  /\ info (c (snd (CreateMobilePdfs.create_pdf_from_images
                     fs image_folder output_pdf title st)))
     = [].
Proof.
  intros Hfiles. rewrite plain_run, optimized_run by assumption.
  cbn [snd converted c info]. split; [|reflexivity].
  unfold optimized_info. now destruct title as [[|ch rest]|].
Qed.

Lemma metadata_only_with_title_witness :
  info (c (snd (CreateMobileOptimizedPdfs.create_mobile_optimized_pdf
                  sample_fs "clean" "out.pdf" (Some "Guide") "Daniel Rosehill"
                  initial_state)))
  = [("Title", "Guide"); ("Author", "Daniel Rosehill");
     ("Subject", "Mobile-Optimized Guide")]
  /\ info (c (snd (CreateMobilePdfs.create_pdf_from_images
                     sample_fs "clean" "out.pdf" (Some "Guide") initial_state)))
     = [].
Proof.
  apply (metadata_only_with_title sample_fs "clean" "out.pdf" (Some "Guide")
           "Daniel Rosehill" initial_state).
  vm_compute. discriminate.
Defined.

(** ** The text of the title page *)

Lemma drawn_strings_app a b :
  drawn_strings (a ++ b) = drawn_strings a ++ drawn_strings b.
Proof.
  induction a as [|o a IH]; simpl; [reflexivity|].
  destruct o; simpl; now rewrite IH.
Qed.

Lemma drawn_strings_lines (f : nat * string -> op) (g : nat * string -> float * float * string) l :
  (forall il, f il = DrawCentredString (fst (fst (g il))) (snd (fst (g il))) (snd (g il))) ->
  drawn_strings (map f l) = map g l.
Proof.
  intros Hf. induction l as [|il l IH]; simpl; [reflexivity|].
  rewrite Hf, IH. simpl. now destruct (g il) as [[x y] text].
Qed.

Lemma optimized_first_page fs image_folder author ch rest :
  hd [] (optimized_document fs image_folder (Some (String ch rest)) author)
  = optimized_title_page (today fs) author (fst (portrait A5)) (snd (portrait A5))
      (String ch rest).
Proof. reflexivity. Qed.

Lemma plain_first_page fs image_folder ch rest :
  hd [] (plain_document fs image_folder (Some (String ch rest)))
  = plain_title_page (fst A5) (snd A5) (String ch rest).
Proof. reflexivity. Qed.

(** X6. When files were found and the title is a non-empty string, the first
    page of [create_mobile_optimized_pdf] carries, in this order and all
    centred at half the page width: one string per segment of
    [title.split('\n')], segment [i] at height 0.65 * page height - 24 * i;
    the current date at 0.5; [By: <author>] at 0.45; [Mobile-Optimized
    Version] at 0.4; the four lines of viewing instructions, line [i] at
    0.3 * page height - 12 * i. *)
Theorem optimized_title_page_text
    fs image_folder output_pdf author st ch rest :
  image_files fs image_folder <> [] ->
  let page_width := fst (portrait A5) in
  let page_height := snd (portrait A5) in
  drawn_strings
    (hd [] (pages (c (snd (CreateMobileOptimizedPdfs.create_mobile_optimized_pdf
                             fs image_folder output_pdf (Some (String ch rest))
                             author st)))))
  = map (fun il => ((page_width / 2)%float,
                    (page_height * 0.65
                     - float_of_int (Z.of_nat (fst il) * 24))%float,
                    snd il))
        (enumerate_from 0 (split newline (String ch rest)))
    ++ [((page_width / 2)%float, (page_height * 0.5)%float, today fs);
        ((page_width / 2)%float, (page_height * 0.45)%float,
         ("By: " ++ author)%string);
        ((page_width / 2)%float, (page_height * 0.4)%float,
         "Mobile-Optimized Version")]
    ++ map (fun il => ((page_width / 2)%float,
                       (page_height * 0.3
                        - float_of_int (Z.of_nat (fst il) * 12))%float,
                       snd il))
           (enumerate_from 0 CreateMobileOptimizedPdfs.instructions).
Proof.
  intros Hfiles page_width page_height.
  rewrite optimized_run by assumption. cbn [snd converted c pages].
  rewrite optimized_first_page. unfold optimized_title_page.
  rewrite !drawn_strings_app.
  rewrite (drawn_strings_lines (title_line (fst (portrait A5)) (snd (portrait A5)))
             (fun il => ((page_width / 2)%float,
                         (page_height * 0.65
                          - float_of_int (Z.of_nat (fst il) * 24))%float,
                         snd il)))
    by reflexivity.
  rewrite (drawn_strings_lines
             (instruction_line (fst (portrait A5)) (snd (portrait A5)))
             (fun il => ((page_width / 2)%float,
                         (page_height * 0.3
                          - float_of_int (Z.of_nat (fst il) * 12))%float,
                         snd il)))
    by reflexivity.
  reflexivity.
Qed.

(** The two-line title of the wireless guide gives two strings, 24 points
    apart. *)
Lemma optimized_title_page_text_witness :
  firstn 2 (drawn_strings
    (hd [] (pages (c (snd (CreateMobileOptimizedPdfs.create_mobile_optimized_pdf
                             sample_fs "clean" "out.pdf"
                             (Some CreateMobileOptimizedPdfs.wireless_title)
                             "Daniel Rosehill" initial_state))))))
  = [((fst (portrait A5) / 2)%float,
      (snd (portrait A5) * 0.65 - float_of_int (0 * 24))%float,
      "Emergency Wireless Notifications");
     ((fst (portrait A5) / 2)%float,
      (snd (portrait A5) * 0.65 - float_of_int (1 * 24))%float,
      "Configuration Guide")].
Proof.
  change CreateMobileOptimizedPdfs.wireless_title
    with (String "E" ("mergency Wireless Notifications"
                        ++ String newline "Configuration Guide")).
  rewrite (optimized_title_page_text sample_fs "clean" "out.pdf"
             "Daniel Rosehill" initial_state).
  - reflexivity.
  - vm_compute. discriminate.
Defined.

(** X7. When files were found and the title is a non-empty string, the first
    page of [create_pdf_from_images] carries exactly three strings, centred at
    half the page width: the title as it was passed (newlines included) at 0.6
    of the page height, the fixed date [June 15, 2025] at 0.5 and [By: Daniel
    Rosehill] at 0.45, whatever the day of the run. *)
Theorem plain_title_page_text fs image_folder output_pdf st ch rest :
  image_files fs image_folder <> [] ->
  drawn_strings
    (hd [] (pages (c (snd (CreateMobilePdfs.create_pdf_from_images
                             fs image_folder output_pdf (Some (String ch rest))
                             st)))))
  = [((fst A5 / 2)%float, (snd A5 * 0.6)%float, String ch rest);
     ((fst A5 / 2)%float, (snd A5 * 0.5)%float, "June 15, 2025");
     ((fst A5 / 2)%float, (snd A5 * 0.45)%float, "By: Daniel Rosehill")].
Proof.
  intros Hfiles.
  rewrite plain_run by assumption. cbn [snd converted c pages].
  rewrite plain_first_page. reflexivity.
Qed.

Lemma plain_title_page_text_witness :
  drawn_strings
    (hd [] (pages (c (snd (CreateMobilePdfs.create_pdf_from_images
                             sample_fs "clean" "out.pdf" (Some "Guide")
                             initial_state)))))
  = [((fst A5 / 2)%float, (snd A5 * 0.6)%float, "Guide");
     ((fst A5 / 2)%float, (snd A5 * 0.5)%float, "June 15, 2025");
     ((fst A5 / 2)%float, (snd A5 * 0.45)%float, "By: Daniel Rosehill")].
Proof.
  apply (plain_title_page_text sample_fs "clean" "out.pdf" initial_state).
  vm_compute. discriminate.
Defined.

(** ** One image per page *)

Lemma images_on_app a b : images_on (a ++ b) = (images_on a + images_on b)%nat.
Proof.
  induction a as [|o a IH]; simpl; [reflexivity|].
  destruct o; simpl; now rewrite IH.
Qed.

Lemma images_on_strings (f : nat * string -> op) l :
  (forall il, exists x y text, f il = DrawCentredString x y text) ->
  images_on (map f l) = 0%nat.
Proof.
  intros Hf. induction l as [|il l IH]; simpl; [reflexivity|].
  destruct (Hf il) as (x & y & text & ->). exact IH.
Qed.

Lemma optimized_title_has_no_image today author pw ph t :
  images_on (optimized_title_page today author pw ph t) = 0%nat.
Proof.
  unfold optimized_title_page. rewrite !images_on_app.
  rewrite !images_on_strings; [reflexivity| |];
    intros il; unfold instruction_line, title_line; eauto.
Qed.

(** X8. Every page of a document holds one image or none: the title page
    holds none, and every other page holds exactly one image and exactly one
    string, its page number.  A file that was skipped leaves nothing on the
    page of the next file. *)
Theorem one_image_per_page fs image_folder output_pdf title author st :
  image_files fs image_folder <> [] ->
  (forall pg,
      In pg (pages (c (snd (CreateMobilePdfs.create_pdf_from_images
                              fs image_folder output_pdf title st)))) ->
      (is_image_page pg = false /\ images_on pg = 0%nat)
      \/ (is_image_page pg = true /\ images_on pg = 1%nat
          /\ List.length (drawn_strings pg) = 1%nat))
  /\ (forall pg,
      In pg (pages (c (snd (CreateMobileOptimizedPdfs.create_mobile_optimized_pdf
                              fs image_folder output_pdf title author st)))) ->
      (is_image_page pg = false /\ images_on pg = 0%nat)
      \/ (is_image_page pg = true /\ images_on pg = 1%nat
          /\ List.length (drawn_strings pg) = 1%nat)).
Proof.
  intros Hfiles. split; intros pg Hpg.
  - rewrite plain_run in Hpg by assumption.
    cbn [snd converted c pages] in Hpg. unfold plain_document in Hpg.
    apply document_cases in Hpg.
    destruct Hpg as [[t ->]|(i & p & w & h & -> & _ & _)].
    + left. split; reflexivity.
    + right. repeat split.
  - rewrite optimized_run in Hpg by assumption.
    cbn [snd converted c pages] in Hpg. unfold optimized_document in Hpg.
    cbv zeta in Hpg.
    apply document_cases in Hpg.
    destruct Hpg as [[t ->]|(i & p & w & h & -> & _ & _)].
    + left. split; [apply optimized_title_not_image
                   |apply optimized_title_has_no_image].
    + right. repeat split.
Qed.

Lemma one_image_per_page_witness :
  image_files sample_fs "mixed" <> []
  /\ (forall pg,
      In pg (pages (c (snd (CreateMobilePdfs.create_pdf_from_images
                              sample_fs "mixed" "out.pdf" (Some "Guide")
                              initial_state)))) ->
      (is_image_page pg = false /\ images_on pg = 0%nat)
      \/ (is_image_page pg = true /\ images_on pg = 1%nat
          /\ List.length (drawn_strings pg) = 1%nat))
  /\ (forall pg,
      In pg (pages (c (snd (CreateMobileOptimizedPdfs.create_mobile_optimized_pdf
                              sample_fs "mixed" "out.pdf" (Some "Guide")
                              "Daniel Rosehill" initial_state)))) ->
      (is_image_page pg = false /\ images_on pg = 0%nat)
      \/ (is_image_page pg = true /\ images_on pg = 1%nat
          /\ List.length (drawn_strings pg) = 1%nat)).
Proof.
  split.
  - vm_compute. discriminate.
  - apply (one_image_per_page sample_fs "mixed" "out.pdf" (Some "Guide")
             "Daniel Rosehill" initial_state).
    vm_compute. discriminate.
Defined.

(** ** The files that are found *)

(** X9. The sorted list that both scripts build from the four globs holds
    each entry of the folder whose name ends in [.png], [.jpg], [.jpeg] or
    [.gif] exactly as often as the folder lists it, and no other entry: no
    file is taken by two patterns.  With distinct names in the folder, the
    names in the list are distinct. *)
Theorem every_image_found_once fs image_folder entries :
  scandir fs image_folder = Some entries ->
  Permutation (image_files fs image_folder) (filter has_image_extension entries)
  /\ (NoDup (map name entries) -> NoDup (map name (image_files fs image_folder))).
Proof.
  intros Hdir. split.
  - now apply image_files_perm.
  - now apply image_files_distinct.
Qed.

Lemma every_image_found_once_witness :
  Permutation (image_files sample_fs "mixed")
    (filter has_image_extension
       [png "10.png" 600 800; corrupt "02.jpg"; png "01.gif" 2000 500;
        corrupt "notes.txt"])
  /\ (NoDup (map name [png "10.png" 600 800; corrupt "02.jpg";
                       png "01.gif" 2000 500; corrupt "notes.txt"]) ->
      NoDup (map name (image_files sample_fs "mixed"))).
Proof.
  apply (every_image_found_once sample_fs "mixed"). reflexivity.
Defined.

(** ** Runs of [main] *)

Lemma effect_refl st : effect st st [] [] [].
Proof. unfold effect. now rewrite !app_nil_r. Qed.

Lemma effect_trans st1 st2 st3 l1 f1 d1 l2 f2 d2 :
  effect st1 st2 l1 f1 d1 -> effect st2 st3 l2 f2 d2 ->
  effect st1 st3 (l1 ++ l2) (f1 ++ f2) (d1 ++ d2).
Proof.
  unfold effect. intros (H1 & H2 & H3) (H4 & H5 & H6).
  rewrite H4, H5, H6, H1, H2, H3. now rewrite !app_assoc.
Qed.

Lemma found_spec fs image_folder :
  (found fs image_folder = true /\ image_files fs image_folder <> [])
  \/ (found fs image_folder = false /\ image_files fs image_folder = []).
Proof.
  unfold found. destruct (image_files fs image_folder); [right|left]; split;
    trivial; discriminate.
Qed.

Lemma plain_effect fs image_folder output_pdf title st :
  exists st',
    CreateMobilePdfs.create_pdf_from_images fs image_folder output_pdf title st
    = (returned (found fs image_folder && writable fs output_pdf), st')
    /\ effect st st'
         (conversion_lines fs image_folder output_pdf
            ("PDF created successfully: " ++ output_pdf))
         (written fs image_folder output_pdf
            (plain_document fs image_folder title))
         [].
Proof.
  unfold conversion_lines, written.
  destruct (found_spec fs image_folder) as [[-> Hfiles]|[-> Hfiles]].
  - rewrite plain_run by assumption. eexists. split; [reflexivity|].
    unfold effect. cbn [converted stdout disk made_dirs unfinished andb].
    rewrite app_nil_r. repeat split.
  - rewrite no_images_plain by assumption. eexists. split; [reflexivity|].
    unfold effect. cbn [advance stdout disk made_dirs unfinished andb].
    rewrite !app_nil_r. repeat split.
Qed.

Lemma optimized_effect fs image_folder output_pdf title author st :
  exists st',
    CreateMobileOptimizedPdfs.create_mobile_optimized_pdf
      fs image_folder output_pdf title author st
    = (returned (found fs image_folder && writable fs output_pdf), st')
    /\ effect st st'
         (conversion_lines fs image_folder output_pdf
            ("Mobile-optimized PDF created successfully: " ++ output_pdf))
         (written fs image_folder output_pdf
            (optimized_document fs image_folder title author))
         [].
Proof.
  unfold conversion_lines, written.
  destruct (found_spec fs image_folder) as [[-> Hfiles]|[-> Hfiles]].
  - rewrite optimized_run by assumption. eexists. split; [reflexivity|].
    unfold effect. cbn [converted stdout disk made_dirs unfinished andb].
    rewrite app_nil_r. repeat split.
  - rewrite no_images_optimized by assumption. eexists. split; [reflexivity|].
    unfold effect. cbn [advance stdout disk made_dirs unfinished andb].
    rewrite !app_nil_r. repeat split.
Qed.

Lemma print_effect line st :
  exists st', print line st = (returned tt, st') /\ effect st st' [line] [] [].
Proof.
  eexists. split; [reflexivity|]. unfold effect. cbn [stdout disk made_dirs unfinished].
  now rewrite !app_nil_r.
Qed.

Lemma makedirs_effect fs path st :
  creatable fs path = true ->
  exists st', makedirs fs path st = (returned tt, st')
              /\ effect st st' [] [] [path].
Proof.
  intros Hdir. unfold makedirs. rewrite Hdir.
  eexists. split; [reflexivity|]. unfold effect. cbn [stdout disk made_dirs unfinished].
  now rewrite !app_nil_r.
Qed.

(** Sequencing two computations that return adds up their effects. *)
Lemma bind_effect {A B} (m : M A) (k : A -> M B) st l1 f1 d1 l2 f2 d2 a b :
  (exists st1, m st = (returned a, st1) /\ effect st st1 l1 f1 d1) ->
  (forall st1, exists st2, k a st1 = (returned b, st2) /\ effect st1 st2 l2 f2 d2) ->
  exists st2, bind m k st = (returned b, st2)
              /\ effect st st2 (l1 ++ l2) (f1 ++ f2) (d1 ++ d2).
Proof.
  intros (st1 & Hm & H1) Hk. destruct (Hk st1) as (st2 & Hk2 & H2).
  exists st2. split.
  - unfold bind. now rewrite Hm.
  - now apply (effect_trans st st1 st2).
Qed.

Lemma not_found_without_folder fs image_folder :
  isdir fs image_folder = false -> found fs image_folder = false.
Proof.
  unfold isdir, found. intros Hdir.
  destruct (scandir fs image_folder) eqn:Hscan; [discriminate|].
  now rewrite image_files_missing.
Qed.

Lemma plain_guide_block fs image_folder output_pdf title heading st :
  exists st',
    (if isdir fs image_folder then
       print (String newline heading) ;;
       _ <- CreateMobilePdfs.create_pdf_from_images
              fs image_folder output_pdf title ;;
       ret tt
     else ret tt) st
    = (returned tt, st')
    /\ effect st st'
         (plain_guide_lines fs image_folder output_pdf heading)
         (written fs image_folder output_pdf
            (plain_document fs image_folder title))
         [].
Proof.
  unfold plain_guide_lines. destruct (isdir fs image_folder) eqn:Hdir.
  - destruct (bind_effect (print (String newline heading))
                (fun _ => _ <- CreateMobilePdfs.create_pdf_from_images
                                 fs image_folder output_pdf title ;; ret tt)
                st _ _ _
                (conversion_lines fs image_folder output_pdf
                   ("PDF created successfully: " ++ output_pdf) ++ [])
                (written fs image_folder output_pdf
                   (plain_document fs image_folder title) ++ [])
                ([] ++ []) tt tt (print_effect _ st))
      as (st2 & Hrun & Heff).
    { intros st1.
      destruct (plain_effect fs image_folder output_pdf title st1)
        as (st2 & Hrun & Heff).
      exists st2. split.
      - unfold bind. now rewrite Hrun.
      - now rewrite !app_nil_r. }
    exists st2. split; [exact Hrun|].
    cbn [app] in Heff. now rewrite !app_nil_r in Heff.
  - exists st. split; [reflexivity|].
    unfold written. rewrite (not_found_without_folder _ _ Hdir).
    apply effect_refl.
Qed.

Lemma optimized_guide_block fs image_folder output_pdf title author heading st :
  exists st',
    (if isdir fs image_folder then
       print (String newline heading) ;;
       _ <- CreateMobileOptimizedPdfs.create_mobile_optimized_pdf
              fs image_folder output_pdf title author ;;
       ret tt
     else print ("Error: Watermarked directory not found: " ++ image_folder)) st
    = (returned tt, st')
    /\ effect st st'
         (optimized_guide_lines fs image_folder output_pdf heading)
         (written fs image_folder output_pdf
            (optimized_document fs image_folder title author))
         [].
Proof.
  unfold optimized_guide_lines. destruct (isdir fs image_folder) eqn:Hdir.
  - destruct (bind_effect (print (String newline heading))
                (fun _ => _ <- CreateMobileOptimizedPdfs.create_mobile_optimized_pdf
                                 fs image_folder output_pdf title author ;; ret tt)
                st _ _ _
                (conversion_lines fs image_folder output_pdf
                   ("Mobile-optimized PDF created successfully: " ++ output_pdf)
                 ++ [])
                (written fs image_folder output_pdf
                   (optimized_document fs image_folder title author) ++ [])
                ([] ++ []) tt tt (print_effect _ st))
      as (st2 & Hrun & Heff).
    { intros st1.
      destruct (optimized_effect fs image_folder output_pdf title author st1)
        as (st2 & Hrun & Heff).
      exists st2. split.
      - unfold bind. now rewrite Hrun.
      - now rewrite !app_nil_r. }
    exists st2. split; [exact Hrun|].
    cbn [app] in Heff. now rewrite !app_nil_r in Heff.
  - unfold written. rewrite (not_found_without_folder _ _ Hdir).
    apply print_effect.
Qed.

(** The same, for a goal whose lists are not yet split. *)
Lemma bind_effect_to {A B} (m : M A) (k : A -> M B) st l1 f1 d1 l2 f2 d2 l f d a b :
  (exists st1, m st = (returned a, st1) /\ effect st st1 l1 f1 d1) ->
  (forall st1, exists st2, k a st1 = (returned b, st2) /\ effect st1 st2 l2 f2 d2) ->
  l = l1 ++ l2 -> f = f1 ++ f2 -> d = d1 ++ d2 ->
  exists st2, bind m k st = (returned b, st2) /\ effect st st2 l f d.
Proof. intros Hm Hk -> -> ->. now apply (bind_effect m k st _ _ _ _ _ _ a b). Qed.

Lemma plain_main_effect fs base_dir source st :
  creatable fs (joinpath base_dir "pdf_guides") = true ->
  exists st',
    CreateMobilePdfs.main fs base_dir source st = (returned tt, st')
    /\ effect st st'
         (plain_guide_lines fs
            (source_folder base_dir source "emergency-wireless-notifiers")
            (joinpath (joinpath base_dir "pdf_guides")
                      "emergency_wireless_notifications_guide.pdf")
            "Creating PDF for Emergency Wireless Notifications Guide"
          ++ plain_guide_lines fs
               (source_folder base_dir source "hfc-guide")
               (joinpath (joinpath base_dir "pdf_guides") "hfc_guide.pdf")
               "Creating PDF for Home Front Command Guide"
          ++ [String newline ("PDFs saved to: " ++ joinpath base_dir "pdf_guides")])
         (written fs
            (source_folder base_dir source "emergency-wireless-notifiers")
            (joinpath (joinpath base_dir "pdf_guides")
                      "emergency_wireless_notifications_guide.pdf")
            (plain_document fs
               (source_folder base_dir source "emergency-wireless-notifiers")
               (Some CreateMobilePdfs.wireless_title))
          ++ written fs
               (source_folder base_dir source "hfc-guide")
               (joinpath (joinpath base_dir "pdf_guides") "hfc_guide.pdf")
               (plain_document fs (source_folder base_dir source "hfc-guide")
                  (Some CreateMobilePdfs.hfc_title)))
         [joinpath base_dir "pdf_guides"].
Proof.
  intros Hdir. unfold CreateMobilePdfs.main. cbv zeta.
  eapply bind_effect_to; [now apply makedirs_effect| |..].
  - intros st1. eapply bind_effect_to; [apply plain_guide_block| |..].
    + intros st2. eapply bind_effect_to; [apply plain_guide_block| |..].
      * intros st3. apply print_effect.
      * reflexivity.
      * reflexivity.
      * reflexivity.
    + reflexivity.
    + reflexivity.
    + reflexivity.
  - reflexivity.
  - cbn [app]. now rewrite app_nil_r.
  - reflexivity.
Qed.

Lemma optimized_main_effect fs base_dir st :
  creatable fs (joinpath base_dir "pdf_guides") = true ->
  exists st',
    CreateMobileOptimizedPdfs.main fs base_dir st = (returned tt, st')
    /\ effect st st'
         (optimized_guide_lines fs
            (joinpath (joinpath base_dir "watermarked")
                      "emergency-wireless-notifiers")
            (joinpath (joinpath base_dir "pdf_guides")
                      "emergency_wireless_notifications_guide_mobile.pdf")
            "Creating mobile-optimized PDF for Emergency Wireless Notifications Guide"
          ++ optimized_guide_lines fs
               (joinpath (joinpath base_dir "watermarked") "hfc-guide")
               (joinpath (joinpath base_dir "pdf_guides") "hfc_guide_mobile.pdf")
               "Creating mobile-optimized PDF for Home Front Command Guide"
          ++ [String newline ("Mobile-optimized PDFs saved to: "
                                ++ joinpath base_dir "pdf_guides");
              "These PDFs are specifically formatted for optimal viewing on mobile devices."])
         (written fs
            (joinpath (joinpath base_dir "watermarked")
                      "emergency-wireless-notifiers")
            (joinpath (joinpath base_dir "pdf_guides")
                      "emergency_wireless_notifications_guide_mobile.pdf")
            (optimized_document fs
               (joinpath (joinpath base_dir "watermarked")
                         "emergency-wireless-notifiers")
               (Some CreateMobileOptimizedPdfs.wireless_title)
               CreateMobileOptimizedPdfs.default_author)
          ++ written fs
               (joinpath (joinpath base_dir "watermarked") "hfc-guide")
               (joinpath (joinpath base_dir "pdf_guides") "hfc_guide_mobile.pdf")
               (optimized_document fs
                  (joinpath (joinpath base_dir "watermarked") "hfc-guide")
                  (Some CreateMobileOptimizedPdfs.hfc_title)
                  CreateMobileOptimizedPdfs.default_author))
         [joinpath base_dir "pdf_guides"].
Proof.
  intros Hdir. unfold CreateMobileOptimizedPdfs.main. cbv zeta.
  eapply bind_effect_to; [now apply makedirs_effect| |..].
  - intros st1. eapply bind_effect_to; [apply optimized_guide_block| |..].
    + intros st2. eapply bind_effect_to; [apply optimized_guide_block| |..].
      * intros st3. eapply bind_effect_to; [apply print_effect| |..].
        -- intros st4. apply print_effect.
        -- reflexivity.
        -- reflexivity.
        -- reflexivity.
      * reflexivity.
      * reflexivity.
      * reflexivity.
    + reflexivity.
    + reflexivity.
    + reflexivity.
  - reflexivity.
  - cbn [app]. now rewrite app_nil_r.
  - reflexivity.
Qed.

(** X10. Whenever [os.makedirs] succeeds on [pdf_guides] under the base
    directory, [main] of each script returns without raising, records the
    directory, and writes
    exactly the PDFs of the guides for which a file was found and the output
    could be written: first the wireless guide, then the HFC guide, each under
    its fixed name in [pdf_guides] and with the two-line title of the guide.
    [create_mobile_pdfs.py] reads the guides from the base directory itself
    for [--source original] and from the sub-directory named after the source
    otherwise; [create_mobile_optimized_pdfs.py] always reads them from
    [watermarked]. *)
Theorem main_writes_found_guides fs base_dir source st :
  creatable fs (joinpath base_dir "pdf_guides") = true ->
  (fst (CreateMobilePdfs.main fs base_dir source st) = returned tt
   /\ made_dirs (snd (CreateMobilePdfs.main fs base_dir source st))
      = made_dirs st ++ [joinpath base_dir "pdf_guides"]
   /\ disk (snd (CreateMobilePdfs.main fs base_dir source st))
      = disk st
        ++ written fs
             (source_folder base_dir source "emergency-wireless-notifiers")
             (joinpath (joinpath base_dir "pdf_guides")
                       "emergency_wireless_notifications_guide.pdf")
             (plain_document fs
                (source_folder base_dir source "emergency-wireless-notifiers")
                (Some CreateMobilePdfs.wireless_title))
        ++ written fs
             (source_folder base_dir source "hfc-guide")
             (joinpath (joinpath base_dir "pdf_guides") "hfc_guide.pdf")
             (plain_document fs (source_folder base_dir source "hfc-guide")
                (Some CreateMobilePdfs.hfc_title)))
  /\ (fst (CreateMobileOptimizedPdfs.main fs base_dir st) = returned tt
      /\ made_dirs (snd (CreateMobileOptimizedPdfs.main fs base_dir st))
         = made_dirs st ++ [joinpath base_dir "pdf_guides"]
      /\ disk (snd (CreateMobileOptimizedPdfs.main fs base_dir st))
         = disk st
           ++ written fs
                (joinpath (joinpath base_dir "watermarked")
                          "emergency-wireless-notifiers")
                (joinpath (joinpath base_dir "pdf_guides")
                          "emergency_wireless_notifications_guide_mobile.pdf")
                (optimized_document fs
                   (joinpath (joinpath base_dir "watermarked")
                             "emergency-wireless-notifiers")
                   (Some CreateMobileOptimizedPdfs.wireless_title)
                   CreateMobileOptimizedPdfs.default_author)
           ++ written fs
                (joinpath (joinpath base_dir "watermarked") "hfc-guide")
                (joinpath (joinpath base_dir "pdf_guides") "hfc_guide_mobile.pdf")
                (optimized_document fs
                   (joinpath (joinpath base_dir "watermarked") "hfc-guide")
                   (Some CreateMobileOptimizedPdfs.hfc_title)
                   CreateMobileOptimizedPdfs.default_author)).
Proof.
  intros Hdir.
  destruct (plain_main_effect fs base_dir source st Hdir)
    as (st1 & -> & _ & H1 & H2).
  destruct (optimized_main_effect fs base_dir st Hdir)
    as (st2 & -> & _ & H3 & H4).
  cbn [fst snd]. repeat split; assumption.
Qed.

(** Only the HFC guide has a folder: one PDF is written by each script. *)
Lemma main_writes_found_guides_witness :
  (fst (CreateMobilePdfs.main hfc_only_fs "repo"
          CreateMobilePdfs.watermarked_legible initial_state) = returned tt
   /\ made_dirs (snd (CreateMobilePdfs.main hfc_only_fs "repo"
                        CreateMobilePdfs.watermarked_legible initial_state))
      = ["repo/pdf_guides"]
   /\ disk (snd (CreateMobilePdfs.main hfc_only_fs "repo"
                   CreateMobilePdfs.watermarked_legible initial_state))
      = [("repo/pdf_guides/hfc_guide.pdf",
          plain_document hfc_only_fs "repo/watermarked_legible/hfc-guide"
            (Some CreateMobilePdfs.hfc_title))])
  /\ (fst (CreateMobileOptimizedPdfs.main hfc_only_fs "repo" initial_state)
      = returned tt
      /\ made_dirs (snd (CreateMobileOptimizedPdfs.main hfc_only_fs "repo"
                           initial_state))
         = ["repo/pdf_guides"]
      /\ disk (snd (CreateMobileOptimizedPdfs.main hfc_only_fs "repo"
                      initial_state))
         = [("repo/pdf_guides/hfc_guide_mobile.pdf",
             optimized_document hfc_only_fs "repo/watermarked/hfc-guide"
               (Some CreateMobileOptimizedPdfs.hfc_title)
               CreateMobileOptimizedPdfs.default_author)]).
Proof.
  apply (main_writes_found_guides hfc_only_fs "repo"
           CreateMobilePdfs.watermarked_legible initial_state).
  reflexivity.
Defined.

(** X11. What [main] prints whenever [os.makedirs] succeeds on [pdf_guides]:
    for the wireless guide and then for the HFC guide, when the folder of the guide exists, a heading
    followed by the lines of the conversion; when it does not exist, nothing
    in [create_mobile_pdfs.py] and the line [Error: Watermarked directory not
    found: <folder>] in [create_mobile_optimized_pdfs.py]; then the closing
    line [PDFs saved to: <base>/pdf_guides] (two closing lines in the
    optimized script), which is printed whether or not a PDF was written. *)
Theorem main_output fs base_dir source st :
  creatable fs (joinpath base_dir "pdf_guides") = true ->
  stdout (snd (CreateMobilePdfs.main fs base_dir source st))
  = stdout st
    ++ plain_guide_lines fs
         (source_folder base_dir source "emergency-wireless-notifiers")
         (joinpath (joinpath base_dir "pdf_guides")
                   "emergency_wireless_notifications_guide.pdf")
         "Creating PDF for Emergency Wireless Notifications Guide"
    ++ plain_guide_lines fs
         (source_folder base_dir source "hfc-guide")
         (joinpath (joinpath base_dir "pdf_guides") "hfc_guide.pdf")
         "Creating PDF for Home Front Command Guide"
    ++ [String newline ("PDFs saved to: " ++ joinpath base_dir "pdf_guides")]
  /\ stdout (snd (CreateMobileOptimizedPdfs.main fs base_dir st))
     = stdout st
       ++ optimized_guide_lines fs
            (joinpath (joinpath base_dir "watermarked")
                      "emergency-wireless-notifiers")
            (joinpath (joinpath base_dir "pdf_guides")
                      "emergency_wireless_notifications_guide_mobile.pdf")
            "Creating mobile-optimized PDF for Emergency Wireless Notifications Guide"
       ++ optimized_guide_lines fs
            (joinpath (joinpath base_dir "watermarked") "hfc-guide")
            (joinpath (joinpath base_dir "pdf_guides") "hfc_guide_mobile.pdf")
            "Creating mobile-optimized PDF for Home Front Command Guide"
       ++ [String newline ("Mobile-optimized PDFs saved to: "
                             ++ joinpath base_dir "pdf_guides");
           "These PDFs are specifically formatted for optimal viewing on mobile devices."].
Proof.
  intros Hdir.
  destruct (plain_main_effect fs base_dir source st Hdir) as (st1 & -> & H1 & _).
  destruct (optimized_main_effect fs base_dir st Hdir) as (st2 & -> & H2 & _).
  cbn [snd]. split; assumption.
Qed.

(** Nothing has a folder: only the closing lines, and the error lines of the
    optimized script. *)
Lemma main_output_witness :
  stdout (snd (CreateMobilePdfs.main bare_fs "repo" CreateMobilePdfs.original
                 initial_state))
  = [String newline "PDFs saved to: repo/pdf_guides"]
  /\ stdout (snd (CreateMobileOptimizedPdfs.main bare_fs "repo" initial_state))
     = ["Error: Watermarked directory not found: repo/watermarked/emergency-wireless-notifiers";
        "Error: Watermarked directory not found: repo/watermarked/hfc-guide";
        String newline "Mobile-optimized PDFs saved to: repo/pdf_guides";
        "These PDFs are specifically formatted for optimal viewing on mobile devices."].
Proof.
  apply (main_output bare_fs "repo" CreateMobilePdfs.original initial_state).
  reflexivity.
Defined.

(** X12. A guide that cannot be converted does not stop the next one: when
    the folder of the HFC guide holds a file with one of the four extensions
    and its output can be written, [main] of each script writes the PDF of the
    HFC guide, whatever happened to the wireless guide before it (folder
    absent, no image, failed save). *)
Theorem second_guide_is_independent fs base_dir source st :
  (found fs (source_folder base_dir source "hfc-guide") = true ->
   writable fs (joinpath (joinpath base_dir "pdf_guides") "hfc_guide.pdf") = true ->
   In (joinpath (joinpath base_dir "pdf_guides") "hfc_guide.pdf",
       plain_document fs (source_folder base_dir source "hfc-guide")
         (Some CreateMobilePdfs.hfc_title))
      (disk (snd (CreateMobilePdfs.main fs base_dir source st))))
  /\ (found fs (joinpath (joinpath base_dir "watermarked") "hfc-guide") = true ->
      writable fs (joinpath (joinpath base_dir "pdf_guides") "hfc_guide_mobile.pdf")
      = true ->
      In (joinpath (joinpath base_dir "pdf_guides") "hfc_guide_mobile.pdf",
          optimized_document fs
            (joinpath (joinpath base_dir "watermarked") "hfc-guide")
            (Some CreateMobileOptimizedPdfs.hfc_title)
            CreateMobileOptimizedPdfs.default_author)
         (disk (snd (CreateMobileOptimizedPdfs.main fs base_dir st)))).
Proof.
  split; intros Hfound Hw.
  - destruct (plain_main_effect fs base_dir source st
                (writable_inside fs _ _ Hw)) as (st1 & -> & _ & H1 & _).
    cbn [snd]. rewrite H1. apply in_or_app. right. apply in_or_app. right.
    unfold written. rewrite Hfound, Hw. now left.
  - destruct (optimized_main_effect fs base_dir st
                (writable_inside fs _ _ Hw)) as (st2 & -> & _ & H2 & _).
    cbn [snd]. rewrite H2. apply in_or_app. right. apply in_or_app. right.
    unfold written. rewrite Hfound, Hw. now left.
Qed.

Lemma second_guide_is_independent_witness :
  In ("repo/pdf_guides/hfc_guide.pdf",
      plain_document hfc_only_fs "repo/watermarked_legible/hfc-guide"
        (Some CreateMobilePdfs.hfc_title))
     (disk (snd (CreateMobilePdfs.main hfc_only_fs "repo"
                   CreateMobilePdfs.watermarked_legible initial_state)))
  /\ In ("repo/pdf_guides/hfc_guide_mobile.pdf",
         optimized_document hfc_only_fs "repo/watermarked/hfc-guide"
           (Some CreateMobileOptimizedPdfs.hfc_title)
           CreateMobileOptimizedPdfs.default_author)
        (disk (snd (CreateMobileOptimizedPdfs.main hfc_only_fs "repo"
                      initial_state))).
Proof.
  destruct (second_guide_is_independent hfc_only_fs "repo"
              CreateMobilePdfs.watermarked_legible initial_state)
    as [Hplain Hoptimized].
  split; [apply Hplain|apply Hoptimized]; reflexivity.
Defined.

(** X13. Absent folders, when [os.makedirs] succeeds on [pdf_guides].  [main] of [create_mobile_optimized_pdfs.py] prints
    [Error: Watermarked directory not found: <folder>] for each of the two
    folders that is absent.  [main] of [create_mobile_pdfs.py] prints nothing
    for an absent folder: when both are absent its whole output is the closing
    line [PDFs saved to: <base>/pdf_guides], and it writes no file. *)
Theorem absent_folders fs base_dir source st :
  creatable fs (joinpath base_dir "pdf_guides") = true ->
  (isdir fs (joinpath (joinpath base_dir "watermarked")
                      "emergency-wireless-notifiers") = false ->
   In ("Error: Watermarked directory not found: "
         ++ joinpath (joinpath base_dir "watermarked")
                     "emergency-wireless-notifiers")%string
      (stdout (snd (CreateMobileOptimizedPdfs.main fs base_dir st))))
  /\ (isdir fs (joinpath (joinpath base_dir "watermarked") "hfc-guide") = false ->
      In ("Error: Watermarked directory not found: "
            ++ joinpath (joinpath base_dir "watermarked") "hfc-guide")%string
         (stdout (snd (CreateMobileOptimizedPdfs.main fs base_dir st))))
  /\ (isdir fs (source_folder base_dir source "emergency-wireless-notifiers")
      = false ->
      isdir fs (source_folder base_dir source "hfc-guide") = false ->
      stdout (snd (CreateMobilePdfs.main fs base_dir source st))
      = stdout st
        ++ [String newline ("PDFs saved to: " ++ joinpath base_dir "pdf_guides")]
      /\ disk (snd (CreateMobilePdfs.main fs base_dir source st)) = disk st).
Proof.
  intros Hpdf.
  destruct (plain_main_effect fs base_dir source st Hpdf)
    as (st1 & -> & H1 & H2 & _).
  destruct (optimized_main_effect fs base_dir st Hpdf) as (st2 & -> & H3 & _).
  cbn [snd]. split; [|split].
  - intros Hdir. rewrite H3. apply in_or_app. right. apply in_or_app. left.
    unfold optimized_guide_lines. rewrite Hdir. now left.
  - intros Hdir. rewrite H3. apply in_or_app. right. apply in_or_app. right.
    apply in_or_app. left.
    unfold optimized_guide_lines. rewrite Hdir. now left.
  - intros Hw Hh. rewrite H1, H2. unfold plain_guide_lines, written.
    rewrite Hw, Hh, !(not_found_without_folder _ _ Hw),
      !(not_found_without_folder _ _ Hh).
    cbn [app andb]. split; [reflexivity|apply app_nil_r].
Qed.

Lemma absent_folders_witness :
  In "Error: Watermarked directory not found: repo/watermarked/emergency-wireless-notifiers"
     (stdout (snd (CreateMobileOptimizedPdfs.main bare_fs "repo" initial_state)))
  /\ In "Error: Watermarked directory not found: repo/watermarked/hfc-guide"
        (stdout (snd (CreateMobileOptimizedPdfs.main bare_fs "repo" initial_state)))
  /\ stdout (snd (CreateMobilePdfs.main bare_fs "repo" CreateMobilePdfs.original
                    initial_state))
     = [String newline "PDFs saved to: repo/pdf_guides"]
  /\ disk (snd (CreateMobilePdfs.main bare_fs "repo" CreateMobilePdfs.original
                  initial_state))
     = [].
Proof.
  destruct (absent_folders bare_fs "repo" CreateMobilePdfs.original initial_state
              eq_refl)
    as (Hwireless & Hhfc & Hplain).
  split; [apply Hwireless; reflexivity|].
  split; [apply Hhfc; reflexivity|].
  apply Hplain; reflexivity.
Defined.

(** ** When the output directory cannot be made *)

(** X15. [os.makedirs(pdf_dir, exist_ok=True)] is called outside any [try]:
    when it raises, because [pdf_guides] is a regular file or cannot be
    created, [main] of each script ends with that exception before it has
    printed anything, looked at a guide or written a file. *)
Theorem main_stops_without_output_directory fs base_dir source st :
  creatable fs (joinpath base_dir "pdf_guides") = false ->
  CreateMobilePdfs.main fs base_dir source st
  = (raised (os_error fs (joinpath base_dir "pdf_guides")), st)
  /\ CreateMobileOptimizedPdfs.main fs base_dir st
     = (raised (os_error fs (joinpath base_dir "pdf_guides")), st).
Proof.
  intros Hdir.
  unfold CreateMobilePdfs.main, CreateMobileOptimizedPdfs.main. cbv zeta.
  unfold bind at 1. unfold makedirs at 1. rewrite Hdir.
  split; [reflexivity|].
  unfold bind at 1. unfold makedirs at 1. rewrite Hdir. reflexivity.
Qed.

(** [pdf_guides] is a regular file: the HFC guide, whose folder is there, is
    not converted. *)
Lemma main_stops_without_output_directory_witness :
  CreateMobilePdfs.main blocked_fs "repo" CreateMobilePdfs.original initial_state
  = (raised (Exception "FileExistsError"
                       "[Errno 17] File exists: 'repo/pdf_guides'"),
     initial_state)
  /\ CreateMobileOptimizedPdfs.main blocked_fs "repo" initial_state
     = (raised (Exception "FileExistsError"
                          "[Errno 17] File exists: 'repo/pdf_guides'"),
        initial_state).
Proof.
  apply (main_stops_without_output_directory blocked_fs "repo"
           CreateMobilePdfs.original initial_state).
  reflexivity.
Defined.
